(** * Cloud cost calculators of the AI Study Circle repository

    A shallow embedding of the two cost scripts

      - [scripts/accurate-cost-calculator.py]  (module [Accurate]), and
      - [scripts/cloud-cost-calculator.py]     (modules [CloudCostCalculator]
        and [Py]),

    followed by the properties of the cost model.

    Numbers.  Every quantity of the scripts is a Python [int] or [float].
    The code is read in two ways.

    Modules [Accurate] and [CloudCostCalculator] read it in exact
    arithmetic: a number is the rational [Q] its decimal literal denotes,
    compared with [==], and the one failure is the [ZeroDivisionError] of
    the true division [/], embedded in the error monad [sum exn].  The
    additions and multiplications are kept in the order of the source.  This
    reading carries the properties that rounding does not change: which
    entries a figure is made of, orders between figures, signs and bounds.
    Where such a property needs every intermediate result to stay finite,
    the scenario is required to be [in_range].

    Module [Py] reads the class-based calculator on the numbers Python
    computes with: [int]s of any size and binary64 [float]s, with rounding,
    infinities and NaN, and the [OverflowError] that the conversion of too
    large an [int] raises.  It carries the properties of the failures and of
    the grand total, and the inputs on which the code and its exact reading
    part.

    A scenario dictionary is a record: the keys the scripts index are always
    present, the keys read with [get] are optional. *)

From Stdlib Require Import QArith Qminmax Qabs Lqa Lia List String Bool.
From Stdlib Require Import Floats.
From Stdlib Require Import ZArith.
From ExtLib Require Import Structures.Monad Structures.MonadExc.
From ExtLib Require Import Data.Monads.EitherMonad.
Import ListNotations.
Import MonadNotation.
Local Open Scope monad_scope.
Local Open Scope Q_scope.

(* Decimal prices are not binary64 numbers; [Binary64] rounds them to the
   nearest one on purpose. *)
#[local] Set Warnings "-inexact-float".

(** ** Python primitives used by the scripts *)

Inductive exn : Type :=
| ZeroDivisionError.

(** The result of a call: [inl e] is a raised exception, [inr v] a value. *)
Abbreviation py := (sum exn).

(** [max(a, b)] keeps its first argument unless the second is larger. *)
Definition py_max (a b : Q) : Q :=
  if Qle_bool b a then a else b.

(** [a / b] on numbers. *)
Definition py_div (a b : Q) : py Q :=
  if Qeq_bool b 0 then raise ZeroDivisionError else ret (a / b).

(** [sum(xs)]: left to right, starting from [0]. *)
Definition py_sum (xs : list Q) : Q :=
  fold_left Qplus xs 0.

(** [len(xs)] as a number. *)
Definition py_len {A : Type} (xs : list A) : Q :=
  inject_Z (Z.of_nat (List.length xs)).

(** [d.get(key, default)] on an optional key of a dictionary. *)
Definition get (v : option Q) (default : Q) : Q :=
  match v with
  | Some x => x
  | None => default
  end.

(** ** scripts/accurate-cost-calculator.py *)

Module Accurate.

(** The scenario dictionaries of [calculate_costs]. *)
Record scenario : Type := Scenario {
  name : string;
  monthly_requests : Q;
  data_transfer_gb : Q;
  storage_gb : Q;
  log_volume_gb : Q;
  users : Q
}.

(** The dictionary both cost functions return. *)
Record costs : Type := Costs {
  compute : Q;
  storage : Q;
  database : Q;
  logging : Q;
  total : Q;
  logging_pct : Q
}.

Definition low : scenario :=
  {| name := "Low Usage (100 DAU, 1.5K req/day)";
     monthly_requests := 45000;
     data_transfer_gb := 200;
     storage_gb := 50;
     log_volume_gb := 10;
     users := 100 |}.

Definition medium : scenario :=
  {| name := "Medium Usage (1K DAU, 50K req/day)";
     monthly_requests := 1500000;
     data_transfer_gb := 1000;
     storage_gb := 200;
     log_volume_gb := 100;
     users := 1000 |}.

Definition high : scenario :=
  {| name := "High Usage (10K DAU, 500K req/day)";
     monthly_requests := 15000000;
     data_transfer_gb := 10000;
     storage_gb := 1000;
     log_volume_gb := 1000;
     users := 10000 |}.

Definition scenarios : list (string * scenario) :=
  [("low"%string, low); ("medium"%string, medium); ("high"%string, high)].

(** The [if users <= 100 / elif users <= 1000 / else] ladder that the
    script repeats for every tiered service. *)
Definition by_users (s : scenario) (small mid large : Q) : Q :=
  if Qle_bool (users s) 100 then small
  else if Qle_bool (users s) 1000 then mid
  else large.

(** The category sub-totals of [calculate_aws_costs], in source order. *)
Definition aws_compute (s : scenario) : Q :=
  let requests := monthly_requests s in
  let lambda_cost := py_max 0 ((requests - 1000000) * 0.0000002) in
  let api_gateway_cost := requests * 0.0000035 in
  lambda_cost + api_gateway_cost.

Definition aws_storage (s : scenario) : Q :=
  let storage_cost := storage_gb s * 0.023 in
  let transfer_cost := data_transfer_gb s * 0.085 in
  storage_cost + transfer_cost.

Definition aws_database (s : scenario) : Q :=
  by_users s 65 156 625.

Definition aws_logging (s : scenario) : Q :=
  let log_gb := log_volume_gb s in
  let cloudwatch_cost := log_gb * 0.50 + log_gb * 0.03 in
  let opensearch_cost := by_users s 28 145 567 in
  cloudwatch_cost + opensearch_cost.

Definition aws_additional : Q := 20.

Definition aws_total (s : scenario) : Q :=
  aws_compute s + aws_storage s + aws_database s + aws_logging s
  + aws_additional.

Definition calculate_aws_costs (s : scenario) : py costs :=
  pct <- py_div (aws_logging s) (aws_total s) ;;
  ret {| compute := aws_compute s;
         storage := aws_storage s;
         database := aws_database s;
         logging := aws_logging s;
         total := aws_total s;
         logging_pct := pct * 100 |}.

(** The category sub-totals of [calculate_azure_costs]. *)
Definition azure_compute (s : scenario) : Q :=
  let requests := monthly_requests s in
  let functions_cost := py_max 0 ((requests - 1000000) * 0.0000002) in
  let apim_cost := by_users s 48 268 2845 in
  functions_cost + apim_cost.

Definition azure_storage (s : scenario) : Q :=
  let storage_cost := storage_gb s * 0.18 in
  let transfer_cost := data_transfer_gb s * 0.15 in
  let static_app_cost := 9 in
  storage_cost + transfer_cost + static_app_cost.

Definition azure_database (s : scenario) : Q :=
  let ru_cost :=
    by_users s (1000 * 0.008 * 730) (5000 * 0.008 * 730)
               (25000 * 0.008 * 730) in
  ru_cost.

Definition azure_logging (s : scenario) : Q :=
  let log_gb := log_volume_gb s in
  let monitor_cost := log_gb * 0.27 + log_gb * 0.12 in
  let search_cost := by_users s 25 89 445 in
  monitor_cost + search_cost.

Definition azure_additional : Q := 15.

Definition azure_total (s : scenario) : Q :=
  azure_compute s + azure_storage s + azure_database s + azure_logging s
  + azure_additional.

Definition calculate_azure_costs (s : scenario) : py costs :=
  pct <- py_div (azure_logging s) (azure_total s) ;;
  ret {| compute := azure_compute s;
         storage := azure_storage s;
         database := azure_database s;
         logging := azure_logging s;
         total := azure_total s;
         logging_pct := pct * 100 |}.

(** The comparison computed in the body of the loop of
    [calculate_costs]: [(savings, savings_pct)]. *)
Definition compare (s : scenario) : py (Q * Q) :=
  aws_costs <- calculate_aws_costs s ;;
  azure_costs <- calculate_azure_costs s ;;
  let savings := total aws_costs - total azure_costs in
  q <- py_div savings (total aws_costs) ;;
  ret (savings, q * 100).

End Accurate.

(** ** scripts/cloud-cost-calculator.py *)

Module CloudCostCalculator.

(** [self.aws_pricing], one module per service. *)
Module aws_pricing.
Module lambda.
Definition requests : Q := 0.0000002.
Definition gb_seconds : Q := 0.0000166667.
End lambda.
Module api_gateway.
Definition requests : Q := 0.0000035.
End api_gateway.
Module s3.
Definition storage : Q := 0.023.
Definition requests_put : Q := 0.0005.
Definition requests_get : Q := 0.0004.
Definition transfer : Q := 0.09.
End s3.
Module cloudfront.
Definition transfer : Q := 0.085.
Definition requests : Q := 0.0075.
End cloudfront.
Module documentdb.
Definition t3_medium : Q := 65.
Definition r5_large : Q := 156.
Definition r5_2xlarge : Q := 625.
End documentdb.
Module cloudwatch.
Definition ingestion : Q := 0.50.
Definition storage : Q := 0.03.
Definition metrics : Q := 0.30.
Definition alarms : Q := 0.10.
End cloudwatch.
Module opensearch.
Definition t3_small : Q := 28.
Definition m5_large : Q := 89.
Definition c5_2xlarge : Q := 567.
End opensearch.
End aws_pricing.

(** [self.azure_pricing]. *)
Module azure_pricing.
Module functions.
Definition requests : Q := 0.0000002.
Definition gb_seconds : Q := 0.000016.
End functions.
Module apim.
Definition developer : Q := 48.
Definition standard : Q := 268.
Definition premium : Q := 2845.
End apim.
Module static_web_apps.
Definition standard : Q := 9.
Definition storage : Q := 0.18.
Definition bandwidth : Q := 0.15.
End static_web_apps.
Module cosmos_db.
Definition ru_per_second : Q := 0.008.
End cosmos_db.
Module monitor.
Definition ingestion : Q := 0.27.
Definition retention_basic : Q := 0.12.
Definition retention_premium : Q := 0.25.
End monitor.
Module cognitive_search.
Definition basic : Q := 25.
Definition standard_s1 : Q := 89.
Definition standard_s3 : Q := 445.
End cognitive_search.
End azure_pricing.

(** A scenario dictionary.  The keys read with [scenario[...]] are
    fields of type [Q]; those read with [scenario.get(key, default)] may be
    absent and are fields of type [option Q]. *)
Record scenario : Type := Scenario {
  name : string;
  requests_per_month : Q;
  avg_duration_seconds : Q;
  memory_gb : Q;
  storage_gb : Q;
  cdn_transfer_gb : Q;
  log_volume_gb : Q;
  metrics_count : Q;
  alarms_count : Q;
  database_cost : Q;
  opensearch_cost : Q;
  apim_tier_cost : Q;
  cosmos_ru_per_second : Q;
  search_tier_cost : Q;
  cognito_cost : option Q;
  notification_cost : option Q;
  waf_cost : option Q;
  data_transfer_cost : option Q;
  ad_b2c_cost : option Q;
  logic_apps_cost : option Q;
  app_gateway_cost : option Q;
  key_vault_cost : option Q
}.

(** *** calculate_aws_costs *)

(** [costs['lambda']] *)
Record lambda_costs : Type := LambdaCosts {
  lambda_requests_cost : Q;
  lambda_execution : Q;
  lambda_total : Q
}.

(** [costs['s3_cloudfront']] *)
Record s3_cloudfront_costs : Type := S3CloudfrontCosts {
  s3_storage : Q;
  s3_transfer : Q;
  s3_total : Q
}.

(** [costs['cloudwatch']] *)
Record cloudwatch_costs : Type := CloudwatchCosts {
  cw_ingestion : Q;
  cw_storage : Q;
  cw_metrics : Q;
  cw_alarms : Q;
  cw_total : Q
}.

(** [costs['additional']] of the AWS function, in insertion order. *)
Record aws_additional : Type := AwsAdditional {
  cognito : Q;
  sns_ses : Q;
  waf : Q;
  aws_data_transfer : Q
}.

(** [costs] of the AWS function. *)
Record aws_breakdown : Type := AwsBreakdown {
  lambda : lambda_costs;
  api_gateway : Q;
  s3_cloudfront : s3_cloudfront_costs;
  database : Q;
  cloudwatch : cloudwatch_costs;
  opensearch : Q;
  additional : aws_additional
}.

(** [costs['additional'].values()] *)
Definition aws_additional_values (a : aws_additional) : list Q :=
  [cognito a; sns_ses a; waf a; aws_data_transfer a].

Definition aws_costs (s : scenario) : aws_breakdown :=
  let lambda_requests := requests_per_month s in
  let lambda_duration := avg_duration_seconds s in
  let lambda_memory_gb := memory_gb s in
  let gb_seconds := lambda_requests * lambda_duration * lambda_memory_gb in
  let l_requests :=
    py_max 0 ((lambda_requests - 1000000) * aws_pricing.lambda.requests) in
  let l_execution :=
    py_max 0 ((gb_seconds - 400000) * aws_pricing.lambda.gb_seconds) in
  let s_storage := storage_gb s * aws_pricing.s3.storage in
  let s_transfer := cdn_transfer_gb s * aws_pricing.cloudfront.transfer in
  let c_ingestion := log_volume_gb s * aws_pricing.cloudwatch.ingestion in
  let c_storage := log_volume_gb s * aws_pricing.cloudwatch.storage in
  let c_metrics := metrics_count s * aws_pricing.cloudwatch.metrics in
  let c_alarms := alarms_count s * aws_pricing.cloudwatch.alarms in
  {| lambda :=
       {| lambda_requests_cost := l_requests;
          lambda_execution := l_execution;
          lambda_total := l_requests + l_execution |};
     api_gateway := lambda_requests * aws_pricing.api_gateway.requests;
     s3_cloudfront :=
       {| s3_storage := s_storage;
          s3_transfer := s_transfer;
          s3_total := s_storage + s_transfer |};
     database := database_cost s;
     cloudwatch :=
       {| cw_ingestion := c_ingestion;
          cw_storage := c_storage;
          cw_metrics := c_metrics;
          cw_alarms := c_alarms;
          cw_total := c_ingestion + c_storage + c_metrics + c_alarms |};
     opensearch := opensearch_cost s;
     additional :=
       {| cognito := get (cognito_cost s) 0;
          sns_ses := get (notification_cost s) 2;
          waf := get (waf_cost s) 6;
          aws_data_transfer := get (data_transfer_cost s) 18 |} |}.

(** [total_cost] of the AWS function. *)
Definition aws_total_cost (costs : aws_breakdown) : Q :=
  lambda_total (lambda costs) + api_gateway costs
  + s3_total (s3_cloudfront costs) + database costs
  + cw_total (cloudwatch costs) + opensearch costs
  + py_sum (aws_additional_values (additional costs)).

(** The dictionary [calculate_aws_costs] returns. *)
Record aws_result : Type := AwsResult {
  aws_breakdown_of : aws_breakdown;
  aws_total : Q;
  aws_logging_percentage : Q
}.

Definition calculate_aws_costs (s : scenario) : py aws_result :=
  let costs := aws_costs s in
  let total_cost := aws_total_cost costs in
  q <- py_div (cw_total (cloudwatch costs) + opensearch costs) total_cost ;;
  ret {| aws_breakdown_of := costs;
         aws_total := total_cost;
         aws_logging_percentage := q * 100 |}.

(** *** calculate_azure_costs *)

(** [costs['functions']] *)
Record functions_costs : Type := FunctionsCosts {
  functions_requests_cost : Q;
  functions_execution : Q;
  functions_total : Q
}.

(** [costs['static_web_apps']] *)
Record static_web_apps_costs : Type := StaticWebAppsCosts {
  swa_base : Q;
  swa_storage : Q;
  swa_bandwidth : Q;
  swa_total : Q
}.

(** [costs['monitor']] *)
Record monitor_costs : Type := MonitorCosts {
  monitor_ingestion : Q;
  monitor_retention : Q;
  monitor_total : Q
}.

(** [costs['additional']] of the Azure function, in insertion order. *)
Record azure_additional : Type := AzureAdditional {
  ad_b2c : Q;
  logic_apps : Q;
  app_gateway : Q;
  key_vault : Q;
  azure_data_transfer : Q
}.

(** [costs] of the Azure function. *)
Record azure_breakdown : Type := AzureBreakdown {
  functions : functions_costs;
  apim : Q;
  static_web_apps : static_web_apps_costs;
  cosmos_db : Q;
  monitor : monitor_costs;
  search : Q;
  az_additional : azure_additional
}.

Definition azure_additional_values (a : azure_additional) : list Q :=
  [ad_b2c a; logic_apps a; app_gateway a; key_vault a; azure_data_transfer a].

Definition azure_costs (s : scenario) : azure_breakdown :=
  let function_requests := requests_per_month s in
  let function_duration := avg_duration_seconds s in
  let function_memory_gb := memory_gb s in
  let gb_seconds :=
    function_requests * function_duration * function_memory_gb in
  let f_requests :=
    py_max 0
      ((function_requests - 1000000) * azure_pricing.functions.requests) in
  let f_execution :=
    py_max 0 ((gb_seconds - 400000) * azure_pricing.functions.gb_seconds) in
  let w_base := azure_pricing.static_web_apps.standard in
  let w_storage := storage_gb s * azure_pricing.static_web_apps.storage in
  let w_bandwidth :=
    cdn_transfer_gb s * azure_pricing.static_web_apps.bandwidth in
  let ru_per_second := cosmos_ru_per_second s in
  let hours_per_month := 730 in
  let m_ingestion := log_volume_gb s * azure_pricing.monitor.ingestion in
  let m_retention :=
    log_volume_gb s * azure_pricing.monitor.retention_basic in
  {| functions :=
       {| functions_requests_cost := f_requests;
          functions_execution := f_execution;
          functions_total := f_requests + f_execution |};
     apim := apim_tier_cost s;
     static_web_apps :=
       {| swa_base := w_base;
          swa_storage := w_storage;
          swa_bandwidth := w_bandwidth;
          swa_total := w_base + w_storage + w_bandwidth |};
     cosmos_db :=
       ru_per_second * azure_pricing.cosmos_db.ru_per_second
       * hours_per_month;
     monitor :=
       {| monitor_ingestion := m_ingestion;
          monitor_retention := m_retention;
          monitor_total := m_ingestion + m_retention |};
     search := search_tier_cost s;
     az_additional :=
       {| ad_b2c := get (ad_b2c_cost s) 0;
          logic_apps := get (logic_apps_cost s) 1;
          app_gateway := get (app_gateway_cost s) 18;
          key_vault := get (key_vault_cost s) 1;
          azure_data_transfer := get (data_transfer_cost s) 16 |} |}.

(** [total_cost] of the Azure function. *)
Definition azure_total_cost (costs : azure_breakdown) : Q :=
  functions_total (functions costs) + apim costs
  + swa_total (static_web_apps costs) + cosmos_db costs
  + monitor_total (monitor costs) + search costs
  + py_sum (azure_additional_values (az_additional costs)).

(** The dictionary [calculate_azure_costs] returns. *)
Record azure_result : Type := AzureResult {
  azure_breakdown_of : azure_breakdown;
  azure_total : Q;
  azure_logging_percentage : Q
}.

Definition calculate_azure_costs (s : scenario) : py azure_result :=
  let costs := azure_costs s in
  let total_cost := azure_total_cost costs in
  q <- py_div (monitor_total (monitor costs) + search costs) total_cost ;;
  ret {| azure_breakdown_of := costs;
         azure_total := total_cost;
         azure_logging_percentage := q * 100 |}.

(** *** generate_scenarios *)

Definition low_usage : scenario :=
  {| name := "Low Usage (100 DAU)";
     requests_per_month := 50000;
     avg_duration_seconds := 2;
     memory_gb := 0.5;
     storage_gb := 50;
     cdn_transfer_gb := 100;
     log_volume_gb := 10;
     metrics_count := 50;
     alarms_count := 10;
     database_cost := 65;
     opensearch_cost := 28;
     apim_tier_cost := 48;
     cosmos_ru_per_second := 1000;
     search_tier_cost := 25;
     cognito_cost := None;
     notification_cost := None;
     waf_cost := None;
     data_transfer_cost := None;
     ad_b2c_cost := None;
     logic_apps_cost := None;
     app_gateway_cost := None;
     key_vault_cost := None |}.

Definition medium_usage : scenario :=
  {| name := "Medium Usage (1K DAU)";
     requests_per_month := 1500000;
     avg_duration_seconds := 2;
     memory_gb := 0.5;
     storage_gb := 200;
     cdn_transfer_gb := 500;
     log_volume_gb := 100;
     metrics_count := 200;
     alarms_count := 25;
     database_cost := 156;
     opensearch_cost := 145;
     apim_tier_cost := 268;
     cosmos_ru_per_second := 5000;
     search_tier_cost := 89;
     cognito_cost := Some 27.5;
     notification_cost := Some 12;
     waf_cost := Some 15;
     data_transfer_cost := Some 89;
     ad_b2c_cost := Some 15;
     logic_apps_cost := Some 28;
     app_gateway_cost := Some 45;
     key_vault_cost := Some 3 |}.

Definition high_usage : scenario :=
  {| name := "High Usage (10K DAU)";
     requests_per_month := 15000000;
     avg_duration_seconds := 3;
     memory_gb := 1.0;
     storage_gb := 1000;
     cdn_transfer_gb := 5000;
     log_volume_gb := 1000;
     metrics_count := 1000;
     alarms_count := 50;
     database_cost := 625;
     opensearch_cost := 567;
     apim_tier_cost := 2845;
     cosmos_ru_per_second := 25000;
     search_tier_cost := 445;
     cognito_cost := Some 275;
     notification_cost := Some 89;
     waf_cost := Some 3000;
     data_transfer_cost := Some 856;
     ad_b2c_cost := Some 150;
     logic_apps_cost := Some 234;
     app_gateway_cost := Some 334;
     key_vault_cost := Some 12 |}.

(** The dictionary of scenarios, in insertion order. *)
Definition generate_scenarios : list (string * scenario) :=
  [("low_usage"%string, low_usage);
   ("medium_usage"%string, medium_usage);
   ("high_usage"%string, high_usage)].

(** *** compare_all_scenarios *)

(** [results[scenario_name]] *)
Record comparison : Type := Comparison {
  scenario_name : string;
  aws : aws_result;
  azure : azure_result;
  savings_azure : Q;
  savings_percentage : Q
}.

(** The body of the loop, for one scenario. *)
Definition compare_scenario (scenario_data : scenario) : py comparison :=
  aws_costs <- calculate_aws_costs scenario_data ;;
  azure_costs <- calculate_azure_costs scenario_data ;;
  q <- py_div (aws_total aws_costs - azure_total azure_costs)
              (aws_total aws_costs) ;;
  ret {| scenario_name := name scenario_data;
         aws := aws_costs;
         azure := azure_costs;
         savings_azure := aws_total aws_costs - azure_total azure_costs;
         savings_percentage := q * 100 |}.

(** The loop over [scenarios.items()]; a raised exception ends it. *)
Fixpoint compare_scenarios (scenarios : list (string * scenario))
  : py (list (string * comparison)) :=
  match scenarios with
  | [] => ret []
  | (key, scenario_data) :: rest =>
      r <- compare_scenario scenario_data ;;
      results <- compare_scenarios rest ;;
      ret ((key, r) :: results)
  end.

Definition compare_all_scenarios : py (list (string * comparison)) :=
  compare_scenarios generate_scenarios.

(** *** generate_report *)

(** [avg_azure_savings] of [generate_report]. *)
Definition avg_azure_savings (results : list (string * comparison)) : py Q :=
  py_div (py_sum (map (fun data => savings_percentage (snd data)) results))
         (py_len results).

(** The three recommendation lines of the report. *)
Inductive recommendation : Type :=
| AzureMoreCostEffective
| AzureModerateSavings
| AwsMayBeMoreCostEffective.

Definition recommend (avg : Q) : recommendation :=
  if negb (Qle_bool avg 5) then AzureMoreCostEffective
  else if negb (Qle_bool avg 0) then AzureModerateSavings
  else AwsMayBeMoreCostEffective.

(** The computed part of [generate_report]: the average and the
    recommendation printed after the per-scenario lines. *)
Definition generate_report : py (Q * recommendation) :=
  results <- compare_all_scenarios ;;
  avg <- avg_azure_savings results ;;
  ret (avg, recommend avg).

End CloudCostCalculator.

Import CloudCostCalculator.

(** ** The Cost Breakdown of the class-based calculator

    [Accurate] returns the five category sub-totals under their own keys.
    [CloudCostCalculator] returns one entry per service; its categories
    group the services the way [Accurate] does: compute is the function
    service with the API front end, logging is the monitoring service with
    the search add-on (the numerator of [logging_percentage]), and
    additional is [sum(costs['additional'].values())]. *)

Definition aws_compute (c : aws_breakdown) : Q :=
  lambda_total (lambda c) + api_gateway c.

Definition aws_storage (c : aws_breakdown) : Q :=
  s3_total (s3_cloudfront c).

Definition aws_database (c : aws_breakdown) : Q :=
  database c.

Definition aws_logging (c : aws_breakdown) : Q :=
  cw_total (cloudwatch c) + opensearch c.

Definition aws_additional_total (c : aws_breakdown) : Q :=
  py_sum (aws_additional_values (additional c)).

Definition azure_compute (c : azure_breakdown) : Q :=
  functions_total (functions c) + apim c.

Definition azure_storage (c : azure_breakdown) : Q :=
  swa_total (static_web_apps c).

Definition azure_database (c : azure_breakdown) : Q :=
  cosmos_db c.

Definition azure_logging (c : azure_breakdown) : Q :=
  monitor_total (monitor c) + search c.

Definition azure_additional_total (c : azure_breakdown) : Q :=
  py_sum (azure_additional_values (az_additional c)).

(** The compute formula in the words of the specification, for a
    per-request price, a per-GB-second price and a tier price. *)
Definition spec_compute (per_request per_gb_second tier_price : Q)
  (s : scenario) : Q :=
  let resource_seconds :=
    requests_per_month s * avg_duration_seconds s * memory_gb s in
  Qmax 0 ((requests_per_month s - 1000000) * per_request)
  + Qmax 0 ((resource_seconds - 400000) * per_gb_second)
  + tier_price.

(** [s] with another monthly request count. *)
Definition with_requests (s : scenario) (r : Q) : scenario :=
  {| name := name s;
     requests_per_month := r;
     avg_duration_seconds := avg_duration_seconds s;
     memory_gb := memory_gb s;
     storage_gb := storage_gb s;
     cdn_transfer_gb := cdn_transfer_gb s;
     log_volume_gb := log_volume_gb s;
     metrics_count := metrics_count s;
     alarms_count := alarms_count s;
     database_cost := database_cost s;
     opensearch_cost := opensearch_cost s;
     apim_tier_cost := apim_tier_cost s;
     cosmos_ru_per_second := cosmos_ru_per_second s;
     search_tier_cost := search_tier_cost s;
     cognito_cost := cognito_cost s;
     notification_cost := notification_cost s;
     waf_cost := waf_cost s;
     data_transfer_cost := data_transfer_cost s;
     ad_b2c_cost := ad_b2c_cost s;
     logic_apps_cost := logic_apps_cost s;
     app_gateway_cost := app_gateway_cost s;
     key_vault_cost := key_vault_cost s |}.

(** ** Scenario predicates *)

(** An optional key, when present, satisfies [P]. *)
Definition opt_all (P : Q -> Prop) (v : option Q) : Prop :=
  match v with
  | Some x => P x
  | None => True
  end.

(** Every numeric field of the scenario is non-negative. *)
Record nonneg (s : scenario) : Prop := Nonneg {
  nn_requests : 0 <= requests_per_month s;
  nn_duration : 0 <= avg_duration_seconds s;
  nn_memory : 0 <= memory_gb s;
  nn_storage : 0 <= storage_gb s;
  nn_transfer : 0 <= cdn_transfer_gb s;
  nn_logs : 0 <= log_volume_gb s;
  nn_metrics : 0 <= metrics_count s;
  nn_alarms : 0 <= alarms_count s;
  nn_database : 0 <= database_cost s;
  nn_opensearch : 0 <= opensearch_cost s;
  nn_apim : 0 <= apim_tier_cost s;
  nn_cosmos : 0 <= cosmos_ru_per_second s;
  nn_search : 0 <= search_tier_cost s;
  nn_cognito : opt_all (Qle 0) (cognito_cost s);
  nn_notification : opt_all (Qle 0) (notification_cost s);
  nn_waf : opt_all (Qle 0) (waf_cost s);
  nn_data_transfer : opt_all (Qle 0) (data_transfer_cost s);
  nn_ad_b2c : opt_all (Qle 0) (ad_b2c_cost s);
  nn_logic_apps : opt_all (Qle 0) (logic_apps_cost s);
  nn_app_gateway : opt_all (Qle 0) (app_gateway_cost s);
  nn_key_vault : opt_all (Qle 0) (key_vault_cost s)
}.

(** A valid scenario: non-negative fields and strictly positive grand
    totals. *)
Definition valid (s : scenario) : Prop :=
  nonneg s
  /\ 0 < aws_total_cost (aws_costs s)
  /\ 0 < azure_total_cost (azure_costs s).

(** The same for the scenarios of [Accurate]. *)
Definition accurate_nonneg (s : Accurate.scenario) : Prop :=
  0 <= Accurate.monthly_requests s
  /\ 0 <= Accurate.data_transfer_gb s
  /\ 0 <= Accurate.storage_gb s
  /\ 0 <= Accurate.log_volume_gb s
  /\ 0 <= Accurate.users s.

(** Order on an optional key: the key keeps its presence and its value
    does not decrease. *)
Definition opt_le (v w : option Q) : Prop :=
  match v, w with
  | Some x, Some y => x <= y
  | None, None => True
  | _, _ => False
  end.

(** [scenario_le s s']: no numeric field of [s'] is below that of [s].
    Raising a single field and keeping the others is the special case in
    which all the other fields are equal. *)
Record scenario_le (s s' : scenario) : Prop := ScenarioLe {
  le_requests : requests_per_month s <= requests_per_month s';
  le_duration : avg_duration_seconds s <= avg_duration_seconds s';
  le_memory : memory_gb s <= memory_gb s';
  le_storage : storage_gb s <= storage_gb s';
  le_transfer : cdn_transfer_gb s <= cdn_transfer_gb s';
  le_logs : log_volume_gb s <= log_volume_gb s';
  le_metrics : metrics_count s <= metrics_count s';
  le_alarms : alarms_count s <= alarms_count s';
  le_database : database_cost s <= database_cost s';
  le_opensearch : opensearch_cost s <= opensearch_cost s';
  le_apim : apim_tier_cost s <= apim_tier_cost s';
  le_cosmos : cosmos_ru_per_second s <= cosmos_ru_per_second s';
  le_search : search_tier_cost s <= search_tier_cost s';
  le_cognito : opt_le (cognito_cost s) (cognito_cost s');
  le_notification : opt_le (notification_cost s) (notification_cost s');
  le_waf : opt_le (waf_cost s) (waf_cost s');
  le_data_transfer : opt_le (data_transfer_cost s) (data_transfer_cost s');
  le_ad_b2c : opt_le (ad_b2c_cost s) (ad_b2c_cost s');
  le_logic_apps : opt_le (logic_apps_cost s) (logic_apps_cost s');
  le_app_gateway : opt_le (app_gateway_cost s) (app_gateway_cost s');
  le_key_vault : opt_le (key_vault_cost s) (key_vault_cost s')
}.

(** The five category sub-totals and the grand total of a provider. *)
Definition aws_figures (s : scenario) : list Q :=
  let c := aws_costs s in
  [aws_compute c; aws_storage c; aws_database c; aws_logging c;
   aws_additional_total c; aws_total_cost c].

Definition azure_figures (s : scenario) : list Q :=
  let c := azure_costs s in
  [azure_compute c; azure_storage c; azure_database c; azure_logging c;
   azure_additional_total c; azure_total_cost c].

(** ** Common inputs of the two scripts

    [common_input a c]: the scenario [a] of [Accurate] and the scenario [c]
    of [CloudCostCalculator] describe the same usage.  The quantities both
    scripts read are equal, and the tier prices that [c] carries as fields
    are the ones [Accurate] selects from the user count of [a]. *)
Record common_input (a : Accurate.scenario) (c : scenario) : Prop :=
  CommonInput {
  ci_requests : Accurate.monthly_requests a == requests_per_month c;
  ci_storage : Accurate.storage_gb a == storage_gb c;
  ci_transfer : Accurate.data_transfer_gb a == cdn_transfer_gb c;
  ci_logs : Accurate.log_volume_gb a == log_volume_gb c;
  ci_database : database_cost c == Accurate.by_users a 65 156 625;
  ci_opensearch : opensearch_cost c == Accurate.by_users a 28 145 567;
  ci_apim : apim_tier_cost c == Accurate.by_users a 48 268 2845;
  ci_cosmos :
    cosmos_ru_per_second c == Accurate.by_users a 1000 5000 25000;
  ci_search : search_tier_cost c == Accurate.by_users a 25 89 445
}.

(** The low-usage figures of [generate_scenarios] as a scenario of
    [Accurate], for 100 users. *)
Definition low_usage_accurate : Accurate.scenario :=
  {| Accurate.name := "Low Usage (100 DAU)";
     Accurate.monthly_requests := 50000;
     Accurate.data_transfer_gb := 100;
     Accurate.storage_gb := 50;
     Accurate.log_volume_gb := 10;
     Accurate.users := 100 |}.

(** The savings percentage recomputed from the summed totals. *)
Definition weighted_savings_percentage
  (results : list (string * comparison)) : Q :=
  let a := py_sum (map (fun d => aws_total (aws (snd d))) results) in
  let b := py_sum (map (fun d => azure_total (azure (snd d))) results) in
  (a - b) / a * 100.

(** The savings percentage of one scenario, from its two grand totals. *)
Definition savings_pct_of (s : scenario) : Q :=
  let a := aws_total_cost (aws_costs s) in
  let b := azure_total_cost (azure_costs s) in
  (a - b) / a * 100.

(** A scenario in which nothing is used and every optional fee is given as
    zero: the AWS grand total is zero and the AWS function raises. *)
Definition idle : scenario :=
  {| name := "Idle";
     requests_per_month := 0;
     avg_duration_seconds := 0;
     memory_gb := 0;
     storage_gb := 0;
     cdn_transfer_gb := 0;
     log_volume_gb := 0;
     metrics_count := 0;
     alarms_count := 0;
     database_cost := 0;
     opensearch_cost := 0;
     apim_tier_cost := 0;
     cosmos_ru_per_second := 0;
     search_tier_cost := 0;
     cognito_cost := Some 0;
     notification_cost := Some 0;
     waf_cost := Some 0;
     data_transfer_cost := Some 0;
     ad_b2c_cost := Some 0;
     logic_apps_cost := Some 0;
     app_gateway_cost := Some 0;
     key_vault_cost := Some 0 |}.

(** ** The AWS compute lines on binary64 numbers

    The compute lines of [CloudCostCalculator.calculate_aws_costs] once
    more, on the binary64 floats that Python computes with, to measure the
    rounding that the embedding in [Q] leaves out.  The decimal prices are
    read as the nearest binary64 number, as Python reads them. *)

Module Binary64.

(** [max(0, x)] *)
Definition max0 (x : float) : float :=
  if PrimFloat.ltb 0 x then x else 0%float.

Definition lambda_requests_cost (requests : float) : float :=
  max0 ((requests - 1000000) * 0.0000002)%float.

Definition lambda_execution (requests duration memory_gb : float) : float :=
  let gb_seconds := (requests * duration * memory_gb)%float in
  max0 ((gb_seconds - 400000) * 0.0000166667)%float.

Definition api_gateway (requests : float) : float :=
  (requests * 0.0000035)%float.

(** [costs['lambda']['total'] + costs['api_gateway']] *)
Definition aws_compute (requests duration memory_gb : float) : float :=
  (lambda_requests_cost requests
   + lambda_execution requests duration memory_gb
   + api_gateway requests)%float.

(** [|x - y| <= eps] *)
Definition within (x y eps : float) : bool :=
  PrimFloat.leb (PrimFloat.abs (x - y)) eps.

End Binary64.

(** ** Further scenario predicates and updates *)

(** An optional key is present and zero. *)
Definition opt_zero (v : option Q) : Prop :=
  match v with
  | Some x => x == 0
  | None => False
  end.

(** Nothing is charged by the AWS function: every quantity it prices and
    every tier price it adds is zero, and every additional fee is zero (for
    a fee with a non-zero default, the key is present and zero). *)
Record aws_free (s : scenario) : Prop := AwsFree {
  free_requests : requests_per_month s == 0;
  free_storage : storage_gb s == 0;
  free_transfer : cdn_transfer_gb s == 0;
  free_logs : log_volume_gb s == 0;
  free_metrics : metrics_count s == 0;
  free_alarms : alarms_count s == 0;
  free_database : database_cost s == 0;
  free_opensearch : opensearch_cost s == 0;
  free_cognito : get (cognito_cost s) 0 == 0;
  free_notification : opt_zero (notification_cost s);
  free_waf : opt_zero (waf_cost s);
  free_data_transfer : opt_zero (data_transfer_cost s)
}.

(** Order on the scenarios of [Accurate]: no field is lowered. *)
Record accurate_le (a a' : Accurate.scenario) : Prop := AccurateLe {
  ale_requests : Accurate.monthly_requests a <= Accurate.monthly_requests a';
  ale_transfer : Accurate.data_transfer_gb a <= Accurate.data_transfer_gb a';
  ale_storage : Accurate.storage_gb a <= Accurate.storage_gb a';
  ale_logs : Accurate.log_volume_gb a <= Accurate.log_volume_gb a';
  ale_users : Accurate.users a <= Accurate.users a'
}.

(** The category sub-totals and the total of both providers in
    [Accurate]. *)
Definition accurate_figures (a : Accurate.scenario) : list Q :=
  [Accurate.aws_compute a; Accurate.aws_storage a; Accurate.aws_database a;
   Accurate.aws_logging a; Accurate.aws_total a;
   Accurate.azure_compute a; Accurate.azure_storage a;
   Accurate.azure_database a; Accurate.azure_logging a;
   Accurate.azure_total a].

(** The savings percentages of a table of results, in order. *)
Definition percentages (results : list (string * comparison)) : list Q :=
  map (fun data => savings_percentage (snd data)) results.

(** A key of a result table and of the scenario table it comes from agree,
    and the result is the comparison of the scenario. *)
Definition compared (p : string * scenario) (kr : string * comparison)
  : Prop :=
  fst kr = fst p /\ compare_scenario (snd p) = inr (snd kr).

(** The table of results of the report, empty if the comparison raises. *)
Definition report_results : list (string * comparison) :=
  match compare_all_scenarios with
  | inr results => results
  | inl _ => []
  end.

(** ** Magnitudes

    The exact reading and the code agree on a statement only where binary64
    stays in range: no sum or product overflows to an infinity and no
    [int] is too large for a [float].  [in_range] keeps every numeric field
    within 10^100 in absolute value, which leaves the largest intermediate
    result, requests * duration * memory, within 10^300. *)

Definition magnitude_limit : Q := inject_Z (10 ^ 100).

Definition within_limit (x : Q) : Prop :=
  - magnitude_limit <= x /\ x <= magnitude_limit.

Record in_range (s : scenario) : Prop := InRange {
  rg_requests : within_limit (requests_per_month s);
  rg_duration : within_limit (avg_duration_seconds s);
  rg_memory : within_limit (memory_gb s);
  rg_storage : within_limit (storage_gb s);
  rg_transfer : within_limit (cdn_transfer_gb s);
  rg_logs : within_limit (log_volume_gb s);
  rg_metrics : within_limit (metrics_count s);
  rg_alarms : within_limit (alarms_count s);
  rg_database : within_limit (database_cost s);
  rg_opensearch : within_limit (opensearch_cost s);
  rg_apim : within_limit (apim_tier_cost s);
  rg_cosmos : within_limit (cosmos_ru_per_second s);
  rg_search : within_limit (search_tier_cost s);
  rg_cognito : opt_all within_limit (cognito_cost s);
  rg_notification : opt_all within_limit (notification_cost s);
  rg_waf : opt_all within_limit (waf_cost s);
  rg_data_transfer : opt_all within_limit (data_transfer_cost s);
  rg_ad_b2c : opt_all within_limit (ad_b2c_cost s);
  rg_logic_apps : opt_all within_limit (logic_apps_cost s);
  rg_app_gateway : opt_all within_limit (app_gateway_cost s);
  rg_key_vault : opt_all within_limit (key_vault_cost s)
}.

Definition accurate_in_range (s : Accurate.scenario) : Prop :=
  within_limit (Accurate.monthly_requests s)
  /\ within_limit (Accurate.data_transfer_gb s)
  /\ within_limit (Accurate.storage_gb s)
  /\ within_limit (Accurate.log_volume_gb s)
  /\ within_limit (Accurate.users s).

(** No optional key of the scenario is present. *)
Definition no_optional_fee (s : scenario) : Prop :=
  cognito_cost s = None /\ notification_cost s = None
  /\ waf_cost s = None /\ data_transfer_cost s = None
  /\ ad_b2c_cost s = None /\ logic_apps_cost s = None
  /\ app_gateway_cost s = None /\ key_vault_cost s = None.

(** ** The class-based calculator on Python numbers

    The cost functions of [scripts/cloud-cost-calculator.py] once more, on
    the numbers Python computes with: a field of a scenario is an [int] (of
    any size) or a [float] (binary64, with its infinities and NaN), products
    and sums are rounded, and an [int] that meets a [float] is converted
    first, which raises [OverflowError] when the [int] is too large.  Module
    [CloudCostCalculator] above is the same code read in exact arithmetic. *)

Module Py.

Inductive error : Type :=
| ZeroDivisionError
| OverflowError.

Abbreviation result := (sum error).

Inductive num : Type :=
| Int (z : Z)
| Float (f : float).

(** [float(z)]: the nearest binary64 number, ties to even; [OverflowError]
    when it is out of range. *)
Definition to_float (z : Z) : result float :=
  match binary_normalize prec emax z 0 false with
  | S754_infinity _ => raise OverflowError
  | x => ret (SF2Prim x)
  end.

(** The operand of a [float] operation. *)
Definition as_float (x : num) : result float :=
  match x with
  | Int z => to_float z
  | Float f => ret f
  end.

(** A binary operation: exact on two [int]s, on [float]s otherwise. *)
Definition binop (on_int : Z -> Z -> Z) (on_float : float -> float -> float)
  (x y : num) : result num :=
  match x, y with
  | Int a, Int b => ret (Int (on_int a b))
  | _, _ =>
      a <- as_float x ;;
      b <- as_float y ;;
      ret (Float (on_float a b))
  end.

Definition add : num -> num -> result num := binop Z.add PrimFloat.add.
Definition sub : num -> num -> result num := binop Z.sub PrimFloat.sub.
Definition mul : num -> num -> result num := binop Z.mul PrimFloat.mul.

(** [x * p], [x + f] and [f + x] for a number [x] and a [float]. *)
Definition mul_float (x : num) (p : float) : result float :=
  a <- as_float x ;; ret (a * p)%float.

Definition add_float (x : num) (f : float) : result float :=
  a <- as_float x ;; ret (a + f)%float.

Definition float_add (f : float) (x : num) : result float :=
  a <- as_float x ;; ret (f + a)%float.

(** [max(0, f)] for a [float]: the [int] 0 unless [f > 0]. *)
Definition max_0 (f : float) : num :=
  if PrimFloat.ltb 0 f then Float f else Int 0.

(** [a / b] on [float]s. *)
Definition div (a b : float) : result float :=
  if PrimFloat.eqb b 0 then raise ZeroDivisionError else ret (a / b)%float.

(** [sum(xs)] read as the additions it stands for: left to right, starting
    from the [int] 0. *)
Fixpoint sum_from (acc : num) (xs : list num) : result num :=
  match xs with
  | [] => ret acc
  | x :: rest => a <- add acc x ;; sum_from a rest
  end.

Definition sum_left_to_right (xs : list num) : result num :=
  sum_from (Int 0) xs.

(** A number that is a [float] or converts to one. *)
Definition converts (x : num) : Prop := exists f, as_float x = inr f.

(** The builtin [sum].  Its value on [float]s is not the same in every
    interpreter: CPython adds left to right through version 3.11 and
    compensates the rounding errors of a [float] sum from 3.12 on.  The cost
    functions below are therefore read with any [py_sum] that meets what
    every version guarantees: a sum of [int]s is exact; nothing but the
    conversion of an [int] can fail; and the sum is computed, and converts,
    when every item converts and so does every sum of leading [int]s.
    [sum_left_to_right] is one such function. *)
Record builtin_sum (py_sum : list num -> result num) : Prop := BuiltinSum {
  sum_ints :
    forall zs : list Z,
      py_sum (map Int zs) = inr (Int (fold_left Z.add zs 0%Z));
  sum_error :
    forall (xs : list num) (e : error),
      py_sum xs = inl e -> e = OverflowError;
  sum_returns :
    forall xs : list num,
      Forall converts xs ->
      (forall (zs : list Z) (rest : list num),
          xs = map Int zs ++ rest ->
          converts (Int (fold_left Z.add zs 0%Z))) ->
      exists r, py_sum xs = inr r /\ converts r
}.

(** [d.get(key, default)] for an [int] default. *)
Definition get (v : option num) (default : Z) : num :=
  match v with
  | Some x => x
  | None => Int default
  end.

Section Builtins.

Variable py_sum : list num -> result num.

Record scenario : Type := Scenario {
  name : string;
  requests_per_month : num;
  avg_duration_seconds : num;
  memory_gb : num;
  storage_gb : num;
  cdn_transfer_gb : num;
  log_volume_gb : num;
  metrics_count : num;
  alarms_count : num;
  database_cost : num;
  opensearch_cost : num;
  apim_tier_cost : num;
  cosmos_ru_per_second : num;
  search_tier_cost : num;
  cognito_cost : option num;
  notification_cost : option num;
  waf_cost : option num;
  data_transfer_cost : option num;
  ad_b2c_cost : option num;
  logic_apps_cost : option num;
  app_gateway_cost : option num;
  key_vault_cost : option num
}.

(** *** calculate_aws_costs *)

Record lambda_costs : Type := LambdaCosts {
  lambda_requests_cost : num;
  lambda_execution : num;
  lambda_total : num
}.

Record s3_cloudfront_costs : Type := S3CloudfrontCosts {
  s3_storage : float;
  s3_transfer : float;
  s3_total : float
}.

Record cloudwatch_costs : Type := CloudwatchCosts {
  cw_ingestion : float;
  cw_storage : float;
  cw_metrics : float;
  cw_alarms : float;
  cw_total : float
}.

Record aws_additional : Type := AwsAdditional {
  cognito : num;
  sns_ses : num;
  waf : num;
  aws_data_transfer : num
}.

Record aws_breakdown : Type := AwsBreakdown {
  lambda : lambda_costs;
  api_gateway : float;
  s3_cloudfront : s3_cloudfront_costs;
  database : num;
  cloudwatch : cloudwatch_costs;
  opensearch : num;
  additional : aws_additional
}.

Definition aws_additional_values (a : aws_additional) : list num :=
  [cognito a; sns_ses a; waf a; aws_data_transfer a].

(** [costs] of the AWS function, entry by entry in source order. *)
Definition aws_costs (s : scenario) : result aws_breakdown :=
  let lambda_requests := requests_per_month s in
  let lambda_duration := avg_duration_seconds s in
  let lambda_memory_gb := memory_gb s in
  g <- mul lambda_requests lambda_duration ;;
  gb_seconds <- mul g lambda_memory_gb ;;
  over_requests <- sub lambda_requests (Int 1000000) ;;
  l_requests <- mul_float over_requests 0.0000002 ;;
  over_seconds <- sub gb_seconds (Int 400000) ;;
  l_execution <- mul_float over_seconds 0.0000166667 ;;
  l_total <- add (max_0 l_requests) (max_0 l_execution) ;;
  gateway <- mul_float lambda_requests 0.0000035 ;;
  s_storage <- mul_float (storage_gb s) 0.023 ;;
  s_transfer <- mul_float (cdn_transfer_gb s) 0.085 ;;
  c_ingestion <- mul_float (log_volume_gb s) 0.50 ;;
  c_storage <- mul_float (log_volume_gb s) 0.03 ;;
  c_metrics <- mul_float (metrics_count s) 0.30 ;;
  c_alarms <- mul_float (alarms_count s) 0.10 ;;
  ret {| lambda :=
           {| lambda_requests_cost := max_0 l_requests;
              lambda_execution := max_0 l_execution;
              lambda_total := l_total |};
         api_gateway := gateway;
         s3_cloudfront :=
           {| s3_storage := s_storage;
              s3_transfer := s_transfer;
              s3_total := (s_storage + s_transfer)%float |};
         database := database_cost s;
         cloudwatch :=
           {| cw_ingestion := c_ingestion;
              cw_storage := c_storage;
              cw_metrics := c_metrics;
              cw_alarms := c_alarms;
              cw_total :=
                (c_ingestion + c_storage + c_metrics + c_alarms)%float |};
         opensearch := opensearch_cost s;
         additional :=
           {| cognito := get (cognito_cost s) 0;
              sns_ses := get (notification_cost s) 2;
              waf := get (waf_cost s) 6;
              aws_data_transfer := get (data_transfer_cost s) 18 |} |}.

(** [total_cost] of the AWS function: the entries added left to right. *)
Definition aws_total_cost (costs : aws_breakdown) : result float :=
  t1 <- add_float (lambda_total (lambda costs)) (api_gateway costs) ;;
  t3 <- float_add (t1 + s3_total (s3_cloudfront costs)) (database costs) ;;
  t5 <- float_add (t3 + cw_total (cloudwatch costs)) (opensearch costs) ;;
  fees <- py_sum (aws_additional_values (additional costs)) ;;
  float_add t5 fees.

Record aws_result : Type := AwsResult {
  aws_breakdown_of : aws_breakdown;
  aws_total : float;
  aws_logging_percentage : float
}.

Definition calculate_aws_costs (s : scenario) : result aws_result :=
  costs <- aws_costs s ;;
  total_cost <- aws_total_cost costs ;;
  logging <- float_add (cw_total (cloudwatch costs)) (opensearch costs) ;;
  q <- div logging total_cost ;;
  ret {| aws_breakdown_of := costs;
         aws_total := total_cost;
         aws_logging_percentage := (q * 100)%float |}.

(** *** calculate_azure_costs *)

Record functions_costs : Type := FunctionsCosts {
  functions_requests_cost : num;
  functions_execution : num;
  functions_total : num
}.

Record static_web_apps_costs : Type := StaticWebAppsCosts {
  swa_base : num;
  swa_storage : float;
  swa_bandwidth : float;
  swa_total : float
}.

Record monitor_costs : Type := MonitorCosts {
  monitor_ingestion : float;
  monitor_retention : float;
  monitor_total : float
}.

Record azure_additional : Type := AzureAdditional {
  ad_b2c : num;
  logic_apps : num;
  app_gateway : num;
  key_vault : num;
  azure_data_transfer : num
}.

Record azure_breakdown : Type := AzureBreakdown {
  functions : functions_costs;
  apim : num;
  static_web_apps : static_web_apps_costs;
  cosmos_db : float;
  monitor : monitor_costs;
  search : num;
  az_additional : azure_additional
}.

Definition azure_additional_values (a : azure_additional) : list num :=
  [ad_b2c a; logic_apps a; app_gateway a; key_vault a; azure_data_transfer a].

Definition azure_costs (s : scenario) : result azure_breakdown :=
  let function_requests := requests_per_month s in
  let function_duration := avg_duration_seconds s in
  let function_memory_gb := memory_gb s in
  g <- mul function_requests function_duration ;;
  gb_seconds <- mul g function_memory_gb ;;
  over_requests <- sub function_requests (Int 1000000) ;;
  f_requests <- mul_float over_requests 0.0000002 ;;
  over_seconds <- sub gb_seconds (Int 400000) ;;
  f_execution <- mul_float over_seconds 0.000016 ;;
  f_total <- add (max_0 f_requests) (max_0 f_execution) ;;
  w_storage <- mul_float (storage_gb s) 0.18 ;;
  w_bandwidth <- mul_float (cdn_transfer_gb s) 0.15 ;;
  ru_price <- mul_float (cosmos_ru_per_second s) 0.008 ;;
  m_ingestion <- mul_float (log_volume_gb s) 0.27 ;;
  m_retention <- mul_float (log_volume_gb s) 0.12 ;;
  ret {| functions :=
           {| functions_requests_cost := max_0 f_requests;
              functions_execution := max_0 f_execution;
              functions_total := f_total |};
         apim := apim_tier_cost s;
         static_web_apps :=
           {| swa_base := Int 9;
              swa_storage := w_storage;
              swa_bandwidth := w_bandwidth;
              swa_total := (9 + w_storage + w_bandwidth)%float |};
         cosmos_db := (ru_price * 730)%float;
         monitor :=
           {| monitor_ingestion := m_ingestion;
              monitor_retention := m_retention;
              monitor_total := (m_ingestion + m_retention)%float |};
         search := search_tier_cost s;
         az_additional :=
           {| ad_b2c := get (ad_b2c_cost s) 0;
              logic_apps := get (logic_apps_cost s) 1;
              app_gateway := get (app_gateway_cost s) 18;
              key_vault := get (key_vault_cost s) 1;
              azure_data_transfer := get (data_transfer_cost s) 16 |} |}.

Definition azure_total_cost (costs : azure_breakdown) : result float :=
  t1 <- add (functions_total (functions costs)) (apim costs) ;;
  t2 <- add_float t1 (swa_total (static_web_apps costs)) ;;
  t5 <- float_add (t2 + cosmos_db costs + monitor_total (monitor costs))
          (search costs) ;;
  fees <- py_sum (azure_additional_values (az_additional costs)) ;;
  float_add t5 fees.

Record azure_result : Type := AzureResult {
  azure_breakdown_of : azure_breakdown;
  azure_total : float;
  azure_logging_percentage : float
}.

Definition calculate_azure_costs (s : scenario) : result azure_result :=
  costs <- azure_costs s ;;
  total_cost <- azure_total_cost costs ;;
  logging <- float_add (monitor_total (monitor costs)) (search costs) ;;
  q <- div logging total_cost ;;
  ret {| azure_breakdown_of := costs;
         azure_total := total_cost;
         azure_logging_percentage := (q * 100)%float |}.

(** *** generate_scenarios *)

Definition low_usage : scenario :=
  {| name := "Low Usage (100 DAU)";
     requests_per_month := Int 50000;
     avg_duration_seconds := Int 2;
     memory_gb := Float 0.5;
     storage_gb := Int 50;
     cdn_transfer_gb := Int 100;
     log_volume_gb := Int 10;
     metrics_count := Int 50;
     alarms_count := Int 10;
     database_cost := Int 65;
     opensearch_cost := Int 28;
     apim_tier_cost := Int 48;
     cosmos_ru_per_second := Int 1000;
     search_tier_cost := Int 25;
     cognito_cost := None;
     notification_cost := None;
     waf_cost := None;
     data_transfer_cost := None;
     ad_b2c_cost := None;
     logic_apps_cost := None;
     app_gateway_cost := None;
     key_vault_cost := None |}.

Definition medium_usage : scenario :=
  {| name := "Medium Usage (1K DAU)";
     requests_per_month := Int 1500000;
     avg_duration_seconds := Int 2;
     memory_gb := Float 0.5;
     storage_gb := Int 200;
     cdn_transfer_gb := Int 500;
     log_volume_gb := Int 100;
     metrics_count := Int 200;
     alarms_count := Int 25;
     database_cost := Int 156;
     opensearch_cost := Int 145;
     apim_tier_cost := Int 268;
     cosmos_ru_per_second := Int 5000;
     search_tier_cost := Int 89;
     cognito_cost := Some (Float 27.5);
     notification_cost := Some (Int 12);
     waf_cost := Some (Int 15);
     data_transfer_cost := Some (Int 89);
     ad_b2c_cost := Some (Int 15);
     logic_apps_cost := Some (Int 28);
     app_gateway_cost := Some (Int 45);
     key_vault_cost := Some (Int 3) |}.

Definition high_usage : scenario :=
  {| name := "High Usage (10K DAU)";
     requests_per_month := Int 15000000;
     avg_duration_seconds := Int 3;
     memory_gb := Float 1.0;
     storage_gb := Int 1000;
     cdn_transfer_gb := Int 5000;
     log_volume_gb := Int 1000;
     metrics_count := Int 1000;
     alarms_count := Int 50;
     database_cost := Int 625;
     opensearch_cost := Int 567;
     apim_tier_cost := Int 2845;
     cosmos_ru_per_second := Int 25000;
     search_tier_cost := Int 445;
     cognito_cost := Some (Int 275);
     notification_cost := Some (Int 89);
     waf_cost := Some (Int 3000);
     data_transfer_cost := Some (Int 856);
     ad_b2c_cost := Some (Int 150);
     logic_apps_cost := Some (Int 234);
     app_gateway_cost := Some (Int 334);
     key_vault_cost := Some (Int 12) |}.

(** *** compare_all_scenarios: the body of the loop *)

Record comparison : Type := Comparison {
  scenario_name : string;
  aws : aws_result;
  azure : azure_result;
  savings_azure : float;
  savings_percentage : float
}.

Definition compare_scenario (scenario_data : scenario) : result comparison :=
  aws_costs <- calculate_aws_costs scenario_data ;;
  azure_costs <- calculate_azure_costs scenario_data ;;
  q <- div (aws_total aws_costs - azure_total azure_costs)
           (aws_total aws_costs) ;;
  ret {| scenario_name := name scenario_data;
         aws := aws_costs;
         azure := azure_costs;
         savings_azure := (aws_total aws_costs - azure_total azure_costs)%float;
         savings_percentage := (q * 100)%float |}.

(** *** The five categories of a breakdown

    Compute, storage, database, logging and additional, grouped as in the
    exact reading, and their sum taken category by category. *)

Definition aws_compute (c : aws_breakdown) : result float :=
  add_float (lambda_total (lambda c)) (api_gateway c).

Definition aws_logging (c : aws_breakdown) : result float :=
  float_add (cw_total (cloudwatch c)) (opensearch c).

Definition aws_category_sum (c : aws_breakdown) : result float :=
  compute <- aws_compute c ;;
  t <- float_add (compute + s3_total (s3_cloudfront c)) (database c) ;;
  logging <- aws_logging c ;;
  fees <- py_sum (aws_additional_values (additional c)) ;;
  float_add (t + logging) fees.

Definition azure_compute (c : azure_breakdown) : result num :=
  add (functions_total (functions c)) (apim c).

Definition azure_logging (c : azure_breakdown) : result float :=
  float_add (monitor_total (monitor c)) (search c).

Definition azure_category_sum (c : azure_breakdown) : result float :=
  compute <- azure_compute c ;;
  t <- add_float compute (swa_total (static_web_apps c)) ;;
  logging <- azure_logging c ;;
  fees <- py_sum (azure_additional_values (az_additional c)) ;;
  float_add (t + cosmos_db c + logging) fees.

End Builtins.

(** *** Scenarios that probe the number model *)

(** The low-usage scenario with other requests, log volume, search price
    and database price. *)
Definition low_usage_with (requests logs search_price database_price : num)
  : scenario :=
  {| name := name low_usage;
     requests_per_month := requests;
     avg_duration_seconds := avg_duration_seconds low_usage;
     memory_gb := memory_gb low_usage;
     storage_gb := storage_gb low_usage;
     cdn_transfer_gb := cdn_transfer_gb low_usage;
     log_volume_gb := logs;
     metrics_count := metrics_count low_usage;
     alarms_count := alarms_count low_usage;
     database_cost := database_price;
     opensearch_cost := search_price;
     apim_tier_cost := apim_tier_cost low_usage;
     cosmos_ru_per_second := cosmos_ru_per_second low_usage;
     search_tier_cost := search_tier_cost low_usage;
     cognito_cost := None;
     notification_cost := None;
     waf_cost := None;
     data_transfer_cost := None;
     ad_b2c_cost := None;
     logic_apps_cost := None;
     app_gateway_cost := None;
     key_vault_cost := None |}.

(** An [int] request count too large for a [float]. *)
Definition huge_requests : scenario :=
  low_usage_with (Int (10 ^ 400)) (Int 10) (Int 28) (Int 65).

(** 7 GB of logs and the middle search tier. *)
Definition regrouped : scenario :=
  low_usage_with (Int 50000) (Int 7) (Int 145) (Int 65).

(** A log volume and a search price close to the largest [float]. *)
Definition overflowing : scenario :=
  low_usage_with (Int 50000) (Float 1.7e308) (Float 1.7e308) (Int 65).

(** A database price of -1000, a credit larger than the rest of the AWS
    bill. *)
Definition credited : scenario :=
  low_usage_with (Int 50000) (Int 10) (Int 28) (Int (-1000)).

(** No optional key of the scenario is present: every additional fee is its
    default, an [int]. *)
Definition default_fees (s : scenario) : Prop :=
  cognito_cost s = None /\ notification_cost s = None
  /\ waf_cost s = None /\ data_transfer_cost s = None
  /\ ad_b2c_cost s = None /\ logic_apps_cost s = None
  /\ app_gateway_cost s = None /\ key_vault_cost s = None.

(** Nothing is used and every optional fee is given as zero. *)
Definition idle : scenario :=
  {| name := "Idle";
     requests_per_month := Float 0;
     avg_duration_seconds := Float 0;
     memory_gb := Float 0;
     storage_gb := Float 0;
     cdn_transfer_gb := Float 0;
     log_volume_gb := Float 0;
     metrics_count := Float 0;
     alarms_count := Float 0;
     database_cost := Float 0;
     opensearch_cost := Float 0;
     apim_tier_cost := Float 0;
     cosmos_ru_per_second := Float 0;
     search_tier_cost := Float 0;
     cognito_cost := Some (Float 0);
     notification_cost := Some (Float 0);
     waf_cost := Some (Float 0);
     data_transfer_cost := Some (Float 0);
     ad_b2c_cost := Some (Float 0);
     logic_apps_cost := Some (Float 0);
     app_gateway_cost := Some (Float 0);
     key_vault_cost := Some (Float 0) |}.

(** *** Scenarios whose numeric fields are all [float]s *)

Definition is_float (x : num) : Prop :=
  match x with
  | Float _ => True
  | Int _ => False
  end.

Definition opt_float (v : option num) : Prop :=
  match v with
  | Some x => is_float x
  | None => True
  end.

Record all_float (s : scenario) : Prop := AllFloat {
  fl_requests : is_float (requests_per_month s);
  fl_duration : is_float (avg_duration_seconds s);
  fl_memory : is_float (memory_gb s);
  fl_storage : is_float (storage_gb s);
  fl_transfer : is_float (cdn_transfer_gb s);
  fl_logs : is_float (log_volume_gb s);
  fl_metrics : is_float (metrics_count s);
  fl_alarms : is_float (alarms_count s);
  fl_database : is_float (database_cost s);
  fl_opensearch : is_float (opensearch_cost s);
  fl_apim : is_float (apim_tier_cost s);
  fl_cosmos : is_float (cosmos_ru_per_second s);
  fl_search : is_float (search_tier_cost s);
  fl_cognito : opt_float (cognito_cost s);
  fl_notification : opt_float (notification_cost s);
  fl_waf : opt_float (waf_cost s);
  fl_data_transfer : opt_float (data_transfer_cost s);
  fl_ad_b2c : opt_float (ad_b2c_cost s);
  fl_logic_apps : opt_float (logic_apps_cost s);
  fl_app_gateway : opt_float (app_gateway_cost s);
  fl_key_vault : opt_float (key_vault_cost s)
}.

End Py.

(** ** Facts about the Python primitives *)

(** Closed goals on concrete rationals: evaluate, then compare the
    integers left. *)
Ltac qcompute :=
  vm_compute;
  first [ reflexivity | discriminate | intro; discriminate
        | split; (reflexivity || discriminate) ].

(** Unfold the price tables in the goal and the hypotheses. *)
Ltac prices :=
  unfold aws_pricing.lambda.requests, aws_pricing.lambda.gb_seconds,
    aws_pricing.api_gateway.requests, aws_pricing.s3.storage,
    aws_pricing.cloudfront.transfer, aws_pricing.cloudwatch.ingestion,
    aws_pricing.cloudwatch.storage, aws_pricing.cloudwatch.metrics,
    aws_pricing.cloudwatch.alarms, azure_pricing.functions.requests,
    azure_pricing.functions.gb_seconds,
    azure_pricing.static_web_apps.standard,
    azure_pricing.static_web_apps.storage,
    azure_pricing.static_web_apps.bandwidth,
    azure_pricing.cosmos_db.ru_per_second, azure_pricing.monitor.ingestion,
    azure_pricing.monitor.retention_basic in *.

Lemma py_max_Qmax (a b : Q) : py_max a b == Qmax a b.
Proof.
  unfold py_max. destruct (Qle_bool b a) eqn:E.
  - apply Qle_bool_iff in E. symmetry. apply Q.max_l. exact E.
  - assert (H : ~ b <= a) by (rewrite <- Qle_bool_iff, E; discriminate).
    symmetry. apply Q.max_r. lra.
Qed.

Lemma py_max_0_nonneg (x : Q) : 0 <= py_max 0 x.
Proof.
  unfold py_max. destruct (Qle_bool x 0) eqn:E; [lra |].
  assert (H : ~ x <= 0) by (rewrite <- Qle_bool_iff, E; discriminate).
  lra.
Qed.

Lemma py_max_0_clamp (x : Q) : x <= 0 -> py_max 0 x = 0.
Proof.
  intros H. unfold py_max. apply Qle_bool_iff in H. now rewrite H.
Qed.

Lemma py_max_0_mono (x y : Q) : x <= y -> py_max 0 x <= py_max 0 y.
Proof.
  intros H. rewrite !py_max_Qmax. apply Q.max_le_compat_l. exact H.
Qed.

Lemma py_div_ok (a b : Q) : ~ b == 0 -> py_div a b = inr (a / b).
Proof.
  intros H. unfold py_div. destruct (Qeq_bool b 0) eqn:E; [| reflexivity].
  apply Qeq_bool_iff in E. contradiction.
Qed.

Lemma py_div_zero (a b : Q) : b == 0 -> py_div a b = inl ZeroDivisionError.
Proof.
  intros H. unfold py_div. apply Qeq_bool_iff in H. now rewrite H.
Qed.

Lemma py_div_raises_iff (a b : Q) :
  py_div a b = inl ZeroDivisionError <-> b == 0.
Proof.
  split; [| apply py_div_zero].
  unfold py_div. destruct (Qeq_bool b 0) eqn:E.
  - intros _. now apply Qeq_bool_iff.
  - discriminate.
Qed.

#[global] Instance py_max_Proper : Proper (Qeq ==> Qeq ==> Qeq) py_max.
Proof.
  intros a a' Ha b b' Hb. rewrite !py_max_Qmax. now rewrite Ha, Hb.
Qed.

(** ** Compute cost *)

Lemma aws_compute_unfold (s : scenario) :
  aws_compute (aws_costs s)
  = py_max 0 ((requests_per_month s - 1000000)
              * aws_pricing.lambda.requests)
    + py_max 0
        ((requests_per_month s * avg_duration_seconds s * memory_gb s
          - 400000) * aws_pricing.lambda.gb_seconds)
    + requests_per_month s * aws_pricing.api_gateway.requests.
Proof. reflexivity. Qed.

Lemma azure_compute_unfold (s : scenario) :
  azure_compute (azure_costs s)
  = py_max 0 ((requests_per_month s - 1000000)
              * azure_pricing.functions.requests)
    + py_max 0
        ((requests_per_month s * avg_duration_seconds s * memory_gb s
          - 400000) * azure_pricing.functions.gb_seconds)
    + apim_tier_cost s.
Proof. reflexivity. Qed.

(** Below the free tier the per-request charge is clamped to [0]. *)
Lemma free_tier_clamp (requests price : Q) :
  requests <= 1000000 -> 0 <= price ->
  py_max 0 ((requests - 1000000) * price) = 0.
Proof.
  intros Hr Hp. apply py_max_0_clamp.
  setoid_replace 0 with (0 * price) by ring.
  apply Qmult_le_compat_r; lra.
Qed.

(** C1, as the code has it.  For every scenario the Azure compute cost is
    max(0, (requests - 1,000,000) * per-request price) + max(0,
    (resource_seconds - 400,000) * per-GB-second price) + the fixed API
    Management tier price of the scenario, with resource_seconds =
    requests * avg_duration * memory; the AWS compute cost has the same two
    clamped terms and, instead of a fixed tier price, the API Gateway fee
    requests * per-request gateway price.  When requests <= 1,000,000 the
    per-request compute component of both providers is exactly 0. *)
Theorem C1_compute_cost (s : scenario) :
  azure_compute (azure_costs s)
  == spec_compute azure_pricing.functions.requests
       azure_pricing.functions.gb_seconds (apim_tier_cost s) s
  /\ aws_compute (aws_costs s)
     == spec_compute aws_pricing.lambda.requests
          aws_pricing.lambda.gb_seconds
          (requests_per_month s * aws_pricing.api_gateway.requests) s
  /\ (requests_per_month s <= 1000000 ->
      lambda_requests_cost (lambda (aws_costs s)) = 0
      /\ functions_requests_cost (functions (azure_costs s)) = 0).
Proof.
  split; [| split].
  - rewrite azure_compute_unfold. unfold spec_compute.
    now rewrite !py_max_Qmax.
  - rewrite aws_compute_unfold. unfold spec_compute.
    now rewrite !py_max_Qmax.
  - intros H. split; cbn; apply free_tier_clamp; try exact H;
      unfold aws_pricing.lambda.requests, azure_pricing.functions.requests;
      lra.
Qed.

(** C1 at the low-usage scenario, whose 50,000 requests are below the free
    tier. *)
Lemma C1_compute_cost_witness :
  requests_per_month low_usage <= 1000000
  /\ lambda_requests_cost (lambda (aws_costs low_usage)) = 0
  /\ functions_requests_cost (functions (azure_costs low_usage)) = 0.
Proof.
  assert (H : requests_per_month low_usage <= 1000000)
    by (vm_compute; discriminate).
  split; [exact H |].
  exact (proj2 (proj2 (C1_compute_cost low_usage)) H).
Defined.

(** C1 as stated fails for AWS: no fixed tier price completes the formula.
    The low-usage scenario and the same scenario with 20,000 requests are in
    the same tier and both below the two free tiers, yet their AWS compute
    costs differ (0.175 and 0.07). *)
Lemma C1_aws_gateway_fee_not_fixed :
  ~ (exists tier_price : Q,
       aws_compute (aws_costs low_usage)
       == spec_compute aws_pricing.lambda.requests
            aws_pricing.lambda.gb_seconds tier_price low_usage
       /\ aws_compute (aws_costs (with_requests low_usage 20000))
          == spec_compute aws_pricing.lambda.requests
               aws_pricing.lambda.gb_seconds tier_price
               (with_requests low_usage 20000)).
Proof.
  intros [t [H1 H2]].
  assert (E1 : aws_compute (aws_costs low_usage) == 0.175)
    by (vm_compute; reflexivity).
  assert (E2 : aws_compute (aws_costs (with_requests low_usage 20000))
               == 0.07) by (vm_compute; reflexivity).
  assert (F1 : spec_compute aws_pricing.lambda.requests
                 aws_pricing.lambda.gb_seconds t low_usage == t).
  { unfold spec_compute. cbn -[Qmax Qplus Qmult Qminus].
    rewrite !Q.max_l; [ring | vm_compute; discriminate ..]. }
  assert (F2 : spec_compute aws_pricing.lambda.requests
                 aws_pricing.lambda.gb_seconds t
                 (with_requests low_usage 20000) == t).
  { unfold spec_compute. cbn -[Qmax Qplus Qmult Qminus].
    rewrite !Q.max_l; [ring | vm_compute; discriminate ..]. }
  rewrite E1, F1 in H1. rewrite E2, F2 in H2. lra.
Qed.

(** ** What the cost functions return *)

(** A returned dictionary holds the breakdown and the total computed from
    the scenario; only the percentage goes through the division. *)
Lemma calculate_aws_costs_inr (s : scenario) (r : aws_result) :
  calculate_aws_costs s = inr r ->
  ~ aws_total_cost (aws_costs s) == 0
  /\ r = {| aws_breakdown_of := aws_costs s;
            aws_total := aws_total_cost (aws_costs s);
            aws_logging_percentage :=
              aws_logging (aws_costs s) / aws_total_cost (aws_costs s)
              * 100 |}.
Proof.
  unfold calculate_aws_costs, py_div.
  destruct (Qeq_bool (aws_total_cost (aws_costs s)) 0) eqn:E; cbn;
    [discriminate |].
  intros H. injection H as <-. split; [| reflexivity].
  intros Hz. apply Qeq_bool_iff in Hz. congruence.
Qed.

Lemma calculate_azure_costs_inr (s : scenario) (r : azure_result) :
  calculate_azure_costs s = inr r ->
  ~ azure_total_cost (azure_costs s) == 0
  /\ r = {| azure_breakdown_of := azure_costs s;
            azure_total := azure_total_cost (azure_costs s);
            azure_logging_percentage :=
              azure_logging (azure_costs s) / azure_total_cost (azure_costs s)
              * 100 |}.
Proof.
  unfold calculate_azure_costs, py_div.
  destruct (Qeq_bool (azure_total_cost (azure_costs s)) 0) eqn:E; cbn;
    [discriminate |].
  intros H. injection H as <-. split; [| reflexivity].
  intros Hz. apply Qeq_bool_iff in Hz. congruence.
Qed.

Lemma calculate_aws_costs_ok (s : scenario) :
  ~ aws_total_cost (aws_costs s) == 0 ->
  calculate_aws_costs s
  = inr {| aws_breakdown_of := aws_costs s;
           aws_total := aws_total_cost (aws_costs s);
           aws_logging_percentage :=
             aws_logging (aws_costs s) / aws_total_cost (aws_costs s)
             * 100 |}.
Proof.
  intros H. unfold calculate_aws_costs.
  change (cw_total (cloudwatch (aws_costs s)) + opensearch (aws_costs s))
    with (aws_logging (aws_costs s)).
  cbv zeta. now rewrite (py_div_ok _ _ H).
Qed.

Lemma calculate_azure_costs_ok (s : scenario) :
  ~ azure_total_cost (azure_costs s) == 0 ->
  calculate_azure_costs s
  = inr {| azure_breakdown_of := azure_costs s;
           azure_total := azure_total_cost (azure_costs s);
           azure_logging_percentage :=
             azure_logging (azure_costs s) / azure_total_cost (azure_costs s)
             * 100 |}.
Proof.
  intros H. unfold calculate_azure_costs.
  change (monitor_total (monitor (azure_costs s)) + search (azure_costs s))
    with (azure_logging (azure_costs s)).
  cbv zeta. now rewrite (py_div_ok _ _ H).
Qed.

Lemma calculate_aws_costs_raises (s : scenario) :
  calculate_aws_costs s = inl ZeroDivisionError
  <-> aws_total_cost (aws_costs s) == 0.
Proof.
  split.
  - intros H. destruct (Qeq_dec (aws_total_cost (aws_costs s)) 0) as [E | E];
      [exact E |].
    rewrite (calculate_aws_costs_ok s E) in H. discriminate.
  - intros H. unfold calculate_aws_costs. cbv zeta.
    now rewrite (py_div_zero _ _ H).
Qed.

Lemma calculate_azure_costs_raises (s : scenario) :
  calculate_azure_costs s = inl ZeroDivisionError
  <-> azure_total_cost (azure_costs s) == 0.
Proof.
  split.
  - intros H.
    destruct (Qeq_dec (azure_total_cost (azure_costs s)) 0) as [E | E];
      [exact E |].
    rewrite (calculate_azure_costs_ok s E) in H. discriminate.
  - intros H. unfold calculate_azure_costs. cbv zeta.
    now rewrite (py_div_zero _ _ H).
Qed.

(** In exact arithmetic the grand total of a breakdown regroups into its
    five categories.  On binary64 numbers the regrouping can change the last
    digits of the total; module [Py] keeps the order of the source. *)
Lemma aws_total_cost_categories (c : aws_breakdown) :
  aws_total_cost c
  == aws_compute c + aws_storage c + aws_database c + aws_logging c
     + aws_additional_total c.
Proof.
  unfold aws_total_cost, aws_compute, aws_storage, aws_database,
    aws_logging, aws_additional_total. ring.
Qed.

Lemma azure_total_cost_categories (c : azure_breakdown) :
  azure_total_cost c
  == azure_compute c + azure_storage c + azure_database c + azure_logging c
     + azure_additional_total c.
Proof.
  unfold azure_total_cost, azure_compute, azure_storage, azure_database,
    azure_logging, azure_additional_total. ring.
Qed.

Lemma low_usage_aws_total_nonzero :
  ~ aws_total_cost (aws_costs low_usage) == 0.
Proof. qcompute. Qed.

Lemma low_usage_azure_total_nonzero :
  ~ azure_total_cost (azure_costs low_usage) == 0.
Proof. qcompute. Qed.

(** ** Database cost *)

Lemma by_users_small (s : Accurate.scenario) (x y z : Q) :
  Accurate.users s <= 100 -> Accurate.by_users s x y z = x.
Proof.
  intros H. unfold Accurate.by_users.
  apply Qle_bool_iff in H. now rewrite H.
Qed.

Lemma by_users_mid (s : Accurate.scenario) (x y z : Q) :
  100 < Accurate.users s -> Accurate.users s <= 1000 ->
  Accurate.by_users s x y z = y.
Proof.
  intros H1 H2. unfold Accurate.by_users.
  destruct (Qle_bool (Accurate.users s) 100) eqn:E.
  - apply Qle_bool_iff in E. lra.
  - apply Qle_bool_iff in H2. now rewrite H2.
Qed.

Lemma by_users_large (s : Accurate.scenario) (x y z : Q) :
  1000 < Accurate.users s -> Accurate.by_users s x y z = z.
Proof.
  intros H. unfold Accurate.by_users.
  destruct (Qle_bool (Accurate.users s) 100) eqn:E1.
  { apply Qle_bool_iff in E1. lra. }
  destruct (Qle_bool (Accurate.users s) 1000) eqn:E2.
  { apply Qle_bool_iff in E2. lra. }
  reflexivity.
Qed.

Lemma accurate_aws_costs_inr (s : Accurate.scenario) (r : Accurate.costs) :
  Accurate.calculate_aws_costs s = inr r ->
  Accurate.compute r = Accurate.aws_compute s
  /\ Accurate.storage r = Accurate.aws_storage s
  /\ Accurate.database r = Accurate.aws_database s
  /\ Accurate.logging r = Accurate.aws_logging s
  /\ Accurate.total r = Accurate.aws_total s
  /\ Accurate.logging_pct r
     = Accurate.aws_logging s / Accurate.aws_total s * 100
  /\ ~ Accurate.aws_total s == 0.
Proof.
  unfold Accurate.calculate_aws_costs, py_div.
  destruct (Qeq_bool (Accurate.aws_total s) 0) eqn:E; cbn; [discriminate |].
  intros H. injection H as <-. cbn. repeat split.
  intros Hz. apply Qeq_bool_iff in Hz. congruence.
Qed.

Lemma accurate_azure_costs_inr (s : Accurate.scenario) (r : Accurate.costs) :
  Accurate.calculate_azure_costs s = inr r ->
  Accurate.compute r = Accurate.azure_compute s
  /\ Accurate.storage r = Accurate.azure_storage s
  /\ Accurate.database r = Accurate.azure_database s
  /\ Accurate.logging r = Accurate.azure_logging s
  /\ Accurate.total r = Accurate.azure_total s
  /\ Accurate.logging_pct r
     = Accurate.azure_logging s / Accurate.azure_total s * 100
  /\ ~ Accurate.azure_total s == 0.
Proof.
  unfold Accurate.calculate_azure_costs, py_div.
  destruct (Qeq_bool (Accurate.azure_total s) 0) eqn:E; cbn; [discriminate |].
  intros H. injection H as <-. cbn. repeat split.
  intros Hz. apply Qeq_bool_iff in Hz. congruence.
Qed.

Lemma accurate_aws_costs_ok (s : Accurate.scenario) :
  ~ Accurate.aws_total s == 0 ->
  exists r, Accurate.calculate_aws_costs s = inr r.
Proof.
  intros H. unfold Accurate.calculate_aws_costs.
  rewrite (py_div_ok _ _ H). cbn. eexists. reflexivity.
Qed.

Lemma accurate_azure_costs_ok (s : Accurate.scenario) :
  ~ Accurate.azure_total s == 0 ->
  exists r, Accurate.calculate_azure_costs s = inr r.
Proof.
  intros H. unfold Accurate.calculate_azure_costs.
  rewrite (py_div_ok _ _ H). cbn. eexists. reflexivity.
Qed.

(** C3.  The database cost is a step function of the user count with
    exactly three tiers, switching at 100 and at 1000 (the DocumentDB price
    of [Accurate]: 65 up to 100 users, 156 above 100 and up to 1000, 625
    above 1000); the request-unit-priced database (Cosmos DB) costs the
    provisioned request units times the per-RU price times 730 hours. *)
Theorem C3_database_cost
  (a : Accurate.scenario) (ra : Accurate.costs)
  (c : scenario) (rz : azure_result) :
  Accurate.calculate_aws_costs a = inr ra ->
  calculate_azure_costs c = inr rz ->
  (Accurate.users a <= 100 -> Accurate.database ra = 65)
  /\ (100 < Accurate.users a -> Accurate.users a <= 1000 ->
      Accurate.database ra = 156)
  /\ (1000 < Accurate.users a -> Accurate.database ra = 625)
  /\ azure_database (azure_breakdown_of rz)
     = cosmos_ru_per_second c * azure_pricing.cosmos_db.ru_per_second * 730.
Proof.
  intros Ha Hz.
  apply accurate_aws_costs_inr in Ha as (_ & _ & -> & _).
  apply calculate_azure_costs_inr in Hz as [_ ->].
  unfold Accurate.aws_database. repeat split.
  - apply by_users_small.
  - apply by_users_mid.
  - apply by_users_large.
Qed.

Lemma accurate_low_aws_total_nonzero : ~ Accurate.aws_total Accurate.low == 0.
Proof. qcompute. Qed.

(** C3 at the low scenario of [Accurate] (100 users: the first tier, at its
    boundary) and the low-usage scenario of the class (1000 RU/s). *)
Lemma C3_database_cost_witness :
  exists ra rz,
    Accurate.calculate_aws_costs Accurate.low = inr ra
    /\ calculate_azure_costs low_usage = inr rz
    /\ Accurate.users Accurate.low <= 100
    /\ Accurate.database ra = 65
    /\ azure_database (azure_breakdown_of rz)
       = cosmos_ru_per_second low_usage
         * azure_pricing.cosmos_db.ru_per_second * 730.
Proof.
  destruct (accurate_aws_costs_ok Accurate.low accurate_low_aws_total_nonzero)
    as [ra Ha].
  pose proof
    (calculate_azure_costs_ok low_usage low_usage_azure_total_nonzero) as Hz.
  assert (Hu : Accurate.users Accurate.low <= 100) by qcompute.
  exists ra. eexists. split; [exact Ha |]. split; [exact Hz |].
  split; [exact Hu |].
  destruct (C3_database_cost Accurate.low ra low_usage _ Ha Hz)
    as (H1 & _ & _ & H4).
  split; [exact (H1 Hu) | exact H4].
Defined.

(** The tier prices switch exactly at the boundaries. *)
Example database_tiers_at_boundaries :
  map (fun u => Accurate.aws_database
                  {| Accurate.name := ""; Accurate.monthly_requests := 0;
                     Accurate.data_transfer_gb := 0; Accurate.storage_gb := 0;
                     Accurate.log_volume_gb := 0; Accurate.users := u |})
      [0; 100; 100.5; 101; 1000; 1000.5; 1001; 10000]
  = [65; 65; 156; 156; 156; 625; 625; 625].
Proof. reflexivity. Qed.

(** The Cosmos DB cost of [Accurate] is the same product, for the request
    units of the tier. *)
Lemma accurate_azure_database_ru (s : Accurate.scenario) :
  Accurate.azure_database s
  == Accurate.by_users s 1000 5000 25000 * 0.008 * 730.
Proof.
  unfold Accurate.azure_database, Accurate.by_users.
  destruct (Qle_bool (Accurate.users s) 100);
    [| destruct (Qle_bool (Accurate.users s) 1000)]; reflexivity.
Qed.

(** ** Division by the grand total *)

Example idle_aws_raises :
  calculate_aws_costs idle = inl ZeroDivisionError.
Proof. reflexivity. Qed.

(** ** Savings *)

(** The sign of a percentage [d / a * 100] of a positive [a] is the sign
    of [d]. *)
Lemma percentage_pos (d a : Q) : 0 < a -> 0 < d -> 0 < d / a * 100.
Proof.
  intros Ha Hd.
  assert (H : 0 < d / a) by (apply Qlt_shift_div_l; [exact Ha | lra]).
  lra.
Qed.

Lemma percentage_neg (d a : Q) : 0 < a -> d < 0 -> d / a * 100 < 0.
Proof.
  intros Ha Hd.
  assert (H : d / a < 0) by (apply Qlt_shift_div_r; [exact Ha | lra]).
  lra.
Qed.

Lemma compare_scenario_ok (s : scenario) :
  ~ aws_total_cost (aws_costs s) == 0 ->
  ~ azure_total_cost (azure_costs s) == 0 ->
  exists ra rz,
    calculate_aws_costs s = inr ra
    /\ calculate_azure_costs s = inr rz
    /\ aws_total ra = aws_total_cost (aws_costs s)
    /\ azure_total rz = azure_total_cost (azure_costs s)
    /\ compare_scenario s
       = inr {| scenario_name := name s;
                aws := ra;
                azure := rz;
                savings_azure := aws_total ra - azure_total rz;
                savings_percentage :=
                  (aws_total ra - azure_total rz) / aws_total ra * 100 |}.
Proof.
  intros Ha Hz. eexists. eexists.
  split; [apply (calculate_aws_costs_ok s Ha) |].
  split; [apply (calculate_azure_costs_ok s Hz) |].
  split; [reflexivity |]. split; [reflexivity |].
  unfold compare_scenario.
  rewrite (calculate_aws_costs_ok s Ha), (calculate_azure_costs_ok s Hz).
  cbn [bind Monad_either aws_total azure_total].
  now rewrite (py_div_ok _ _ Ha).
Qed.

Lemma accurate_compare_ok (s : Accurate.scenario) :
  ~ Accurate.aws_total s == 0 ->
  ~ Accurate.azure_total s == 0 ->
  Accurate.compare s
  = inr (Accurate.aws_total s - Accurate.azure_total s,
         (Accurate.aws_total s - Accurate.azure_total s)
         / Accurate.aws_total s * 100).
Proof.
  intros Ha Hz.
  unfold Accurate.compare, Accurate.calculate_aws_costs,
    Accurate.calculate_azure_costs.
  rewrite (py_div_ok _ _ Ha), (py_div_ok _ _ Hz).
  cbn [bind ret Monad_either Accurate.total].
  now rewrite (py_div_ok _ _ Ha).
Qed.

Lemma accurate_low_azure_total_nonzero :
  ~ Accurate.azure_total Accurate.low == 0.
Proof. qcompute. Qed.

(** ** The average savings percentage *)

(** [sum] adds the elements up: the left fold from [0] is the sum of the
    list. *)
Lemma fold_left_Qplus (xs : list Q) (acc : Q) :
  fold_left Qplus xs acc == acc + fold_right Qplus 0 xs.
Proof.
  revert acc. induction xs as [| x xs IH]; intros acc; cbn [fold_left fold_right].
  - ring.
  - rewrite IH. ring.
Qed.

Lemma py_sum_spec (xs : list Q) : py_sum xs == fold_right Qplus 0 xs.
Proof. unfold py_sum. rewrite fold_left_Qplus. ring. Qed.

Lemma py_len_cons_pos {A : Type} (x : A) (xs : list A) :
  0 < py_len (x :: xs).
Proof.
  unfold py_len, Qlt. cbn [Qnum Qden inject_Z List.length]. lia.
Qed.

Lemma compare_all_scenarios_ok :
  exists r1 r2 r3,
    compare_scenario low_usage = inr r1
    /\ compare_scenario medium_usage = inr r2
    /\ compare_scenario high_usage = inr r3
    /\ compare_all_scenarios
       = inr [("low_usage"%string, r1); ("medium_usage"%string, r2);
              ("high_usage"%string, r3)].
Proof.
  destruct (compare_scenario_ok low_usage) as (a1 & z1 & _ & _ & _ & _ & E1);
    [qcompute | qcompute |].
  destruct (compare_scenario_ok medium_usage)
    as (a2 & z2 & _ & _ & _ & _ & E2); [qcompute | qcompute |].
  destruct (compare_scenario_ok high_usage) as (a3 & z3 & _ & _ & _ & _ & E3);
    [qcompute | qcompute |].
  eexists. eexists. eexists.
  split; [exact E1 |]. split; [exact E2 |]. split; [exact E3 |].
  unfold compare_all_scenarios, generate_scenarios.
  cbn [compare_scenarios]. rewrite E1, E2, E3. reflexivity.
Qed.

(** C6.  The average savings percentage of the report is the arithmetic
    mean of the per-scenario savings percentages, their sum divided by their
    number: for any non-empty table of results, and in particular for the
    three scenarios of the report, where it is (p_low + p_medium + p_high) / 3
    and differs from the percentage recomputed from the summed totals. *)
Theorem C6_average_is_arithmetic_mean :
  (forall (r : string * comparison) (rest : list (string * comparison)),
      exists avg,
        avg_azure_savings (r :: rest) = inr avg
        /\ avg
           == fold_right Qplus 0
                (map (fun d => savings_percentage (snd d)) (r :: rest))
              / inject_Z (Z.of_nat (List.length (r :: rest))))
  /\ (exists results avg advice,
        compare_all_scenarios = inr results
        /\ generate_report = inr (avg, advice)
        /\ avg
           == (savings_pct_of low_usage + savings_pct_of medium_usage
               + savings_pct_of high_usage) / 3
        /\ ~ avg == weighted_savings_percentage results).
Proof.
  split.
  - intros r rest. eexists. split.
    + unfold avg_azure_savings. apply py_div_ok.
      pose proof (py_len_cons_pos r rest). lra.
    + rewrite py_sum_spec. reflexivity.
  - destruct compare_all_scenarios_ok as (r1 & r2 & r3 & E1 & E2 & E3 & E).
    eexists. eexists. eexists. split; [exact E |].
    assert (V : r1 = match compare_scenario low_usage with
                     | inr r => r | inl _ => r1 end) by now rewrite E1.
    assert (V2 : r2 = match compare_scenario medium_usage with
                      | inr r => r | inl _ => r2 end) by now rewrite E2.
    assert (V3 : r3 = match compare_scenario high_usage with
                      | inr r => r | inl _ => r3 end) by now rewrite E3.
    split.
    + unfold generate_report. rewrite E. cbn [bind Monad_either].
      unfold avg_azure_savings. rewrite py_div_ok; [reflexivity |].
      qcompute.
    + rewrite V, V2, V3. split; qcompute.
Qed.

(** ** Non-negative scenarios *)

Lemma get_nonneg (v : option Q) (default : Q) :
  opt_all (Qle 0) v -> 0 <= default -> 0 <= get v default.
Proof. destruct v; cbn; auto. Qed.

Lemma aws_additional_total_unfold (s : scenario) :
  aws_additional_total (aws_costs s)
  == get (cognito_cost s) 0 + get (notification_cost s) 2
     + get (waf_cost s) 6 + get (data_transfer_cost s) 18.
Proof.
  unfold aws_additional_total, py_sum. cbn. ring.
Qed.

Lemma azure_additional_total_unfold (s : scenario) :
  azure_additional_total (azure_costs s)
  == get (ad_b2c_cost s) 0 + get (logic_apps_cost s) 1
     + get (app_gateway_cost s) 18 + get (key_vault_cost s) 1
     + get (data_transfer_cost s) 16.
Proof.
  unfold azure_additional_total, py_sum. cbn. ring.
Qed.

Lemma aws_additional_total_nonneg (s : scenario) :
  nonneg s -> 0 <= aws_additional_total (aws_costs s).
Proof.
  intros N. rewrite aws_additional_total_unfold.
  pose proof (get_nonneg _ 0 (nn_cognito s N)).
  pose proof (get_nonneg _ 2 (nn_notification s N)).
  pose proof (get_nonneg _ 6 (nn_waf s N)).
  pose proof (get_nonneg _ 18 (nn_data_transfer s N)).
  lra.
Qed.

Lemma azure_additional_total_nonneg (s : scenario) :
  nonneg s -> 0 <= azure_additional_total (azure_costs s).
Proof.
  intros N. rewrite azure_additional_total_unfold.
  pose proof (get_nonneg _ 0 (nn_ad_b2c s N)).
  pose proof (get_nonneg _ 1 (nn_logic_apps s N)).
  pose proof (get_nonneg _ 18 (nn_app_gateway s N)).
  pose proof (get_nonneg _ 1 (nn_key_vault s N)).
  pose proof (get_nonneg _ 16 (nn_data_transfer s N)).
  lra.
Qed.

Lemma aws_compute_nonneg (s : scenario) :
  nonneg s -> 0 <= aws_compute (aws_costs s).
Proof.
  intros N. rewrite aws_compute_unfold.
  pose proof (py_max_0_nonneg
    ((requests_per_month s - 1000000) * aws_pricing.lambda.requests)).
  pose proof (py_max_0_nonneg
    ((requests_per_month s * avg_duration_seconds s * memory_gb s - 400000)
     * aws_pricing.lambda.gb_seconds)).
  pose proof (nn_requests s N).
  unfold aws_pricing.api_gateway.requests. lra.
Qed.

Lemma azure_compute_nonneg (s : scenario) :
  nonneg s -> 0 <= azure_compute (azure_costs s).
Proof.
  intros N. rewrite azure_compute_unfold.
  pose proof (py_max_0_nonneg
    ((requests_per_month s - 1000000) * azure_pricing.functions.requests)).
  pose proof (py_max_0_nonneg
    ((requests_per_month s * avg_duration_seconds s * memory_gb s - 400000)
     * azure_pricing.functions.gb_seconds)).
  pose proof (nn_apim s N). lra.
Qed.

Lemma aws_storage_unfold (s : scenario) :
  aws_storage (aws_costs s)
  = storage_gb s * aws_pricing.s3.storage
    + cdn_transfer_gb s * aws_pricing.cloudfront.transfer.
Proof. reflexivity. Qed.

Lemma azure_storage_unfold (s : scenario) :
  azure_storage (azure_costs s)
  = azure_pricing.static_web_apps.standard
    + storage_gb s * azure_pricing.static_web_apps.storage
    + cdn_transfer_gb s * azure_pricing.static_web_apps.bandwidth.
Proof. reflexivity. Qed.

Lemma aws_logging_unfold (s : scenario) :
  aws_logging (aws_costs s)
  = log_volume_gb s * aws_pricing.cloudwatch.ingestion
    + log_volume_gb s * aws_pricing.cloudwatch.storage
    + metrics_count s * aws_pricing.cloudwatch.metrics
    + alarms_count s * aws_pricing.cloudwatch.alarms
    + opensearch_cost s.
Proof. reflexivity. Qed.

Lemma azure_logging_unfold (s : scenario) :
  azure_logging (azure_costs s)
  = log_volume_gb s * azure_pricing.monitor.ingestion
    + log_volume_gb s * azure_pricing.monitor.retention_basic
    + search_tier_cost s.
Proof. reflexivity. Qed.

Lemma azure_database_unfold (s : scenario) :
  azure_database (azure_costs s)
  = cosmos_ru_per_second s * azure_pricing.cosmos_db.ru_per_second * 730.
Proof. reflexivity. Qed.

(** With non-negative fields the logging cost is non-negative and no
    larger than the grand total. *)
Lemma aws_logging_bounds (s : scenario) :
  nonneg s ->
  0 <= aws_logging (aws_costs s)
  /\ aws_logging (aws_costs s) <= aws_total_cost (aws_costs s).
Proof.
  intros N.
  pose proof (aws_compute_nonneg s N) as Hc.
  pose proof (aws_additional_total_nonneg s N) as Hx.
  rewrite aws_total_cost_categories.
  assert (Hs : 0 <= aws_storage (aws_costs s)).
  { rewrite aws_storage_unfold. prices.
    pose proof (nn_storage s N). pose proof (nn_transfer s N). lra. }
  assert (Hd : 0 <= aws_database (aws_costs s)) by apply (nn_database s N).
  assert (Hl : 0 <= aws_logging (aws_costs s)).
  { rewrite aws_logging_unfold. prices.
    pose proof (nn_logs s N). pose proof (nn_metrics s N).
    pose proof (nn_alarms s N). pose proof (nn_opensearch s N). lra. }
  lra.
Qed.

Lemma azure_logging_bounds (s : scenario) :
  nonneg s ->
  0 <= azure_logging (azure_costs s)
  /\ azure_logging (azure_costs s) <= azure_total_cost (azure_costs s).
Proof.
  intros N.
  pose proof (azure_compute_nonneg s N) as Hc.
  pose proof (azure_additional_total_nonneg s N) as Hx.
  rewrite azure_total_cost_categories.
  assert (Hs : 0 <= azure_storage (azure_costs s)).
  { rewrite azure_storage_unfold. prices.
    pose proof (nn_storage s N). pose proof (nn_transfer s N). lra. }
  assert (Hd : 0 <= azure_database (azure_costs s)).
  { rewrite azure_database_unfold. prices. pose proof (nn_cosmos s N). lra. }
  assert (Hl : 0 <= azure_logging (azure_costs s)).
  { rewrite azure_logging_unfold. prices.
    pose proof (nn_logs s N). pose proof (nn_search s N). lra. }
  lra.
Qed.

Lemma percentage_bounds (l t : Q) :
  0 <= l -> l <= t -> 0 < t -> 0 <= l / t * 100 /\ l / t * 100 <= 100.
Proof.
  intros Hl Hlt Ht.
  assert (H0 : 0 <= l / t) by (apply Qle_shift_div_l; [exact Ht | lra]).
  assert (H1 : l / t <= 1) by (apply Qle_shift_div_r; [exact Ht | lra]).
  lra.
Qed.

Lemma low_usage_nonneg : nonneg low_usage.
Proof. constructor; first [exact I | qcompute]. Qed.

Lemma low_usage_valid : valid low_usage.
Proof. split; [exact low_usage_nonneg | split; qcompute]. Qed.

(** ** The low-usage scenario *)

(** C8.  For the low-usage scenario (50,000 requests of 2 s at 0.5 GB,
    50 GB stored, 100 GB transferred, 10 GB of logs; tier prices for 100
    users) the AWS function returns a breakdown in which both Lambda
    components are clamped to 0, the compute cost is the API Gateway
    per-request fee 50,000 * 0.0000035 = 0.175, the database cost is 65 and
    the search add-on cost is 28, each within 0.01 of the documented figure;
    the compute cost stays within 0.01 of 0.175 when it is computed on
    binary64 numbers. *)
Theorem C8_low_usage_aws_breakdown :
  (requests_per_month low_usage == 50000
   /\ avg_duration_seconds low_usage == 2
   /\ memory_gb low_usage == 0.5
   /\ storage_gb low_usage == 50
   /\ cdn_transfer_gb low_usage == 100
   /\ log_volume_gb low_usage == 10)
  /\ (exists r,
        calculate_aws_costs low_usage = inr r
        /\ lambda_requests_cost (lambda (aws_breakdown_of r)) == 0
        /\ lambda_execution (lambda (aws_breakdown_of r)) == 0
        /\ aws_compute (aws_breakdown_of r) == api_gateway (aws_breakdown_of r)
        /\ api_gateway (aws_breakdown_of r)
           == 50000 * aws_pricing.api_gateway.requests
        /\ Qabs (aws_compute (aws_breakdown_of r) - 0.175) <= 0.01
        /\ Qabs (aws_database (aws_breakdown_of r) - 65) <= 0.01
        /\ Qabs (opensearch (aws_breakdown_of r) - 28) <= 0.01)
  /\ Binary64.lambda_requests_cost 50000 = 0%float
  /\ Binary64.lambda_execution 50000 2 0.5 = 0%float
  /\ Binary64.within (Binary64.aws_compute 50000 2 0.5) 0.175 0.01 = true.
Proof.
  split; [repeat split; reflexivity |]. split.
  - eexists.
    split; [apply (calculate_aws_costs_ok low_usage);
            exact low_usage_aws_total_nonzero |].
    cbn [aws_breakdown_of]. repeat split; qcompute.
  - repeat split; vm_compute; reflexivity.
Qed.

(** ** C5 and C7 within range *)

Lemma low_usage_in_range : in_range low_usage.
Proof. constructor; first [exact I | qcompute]. Qed.

Lemma accurate_low_in_range : accurate_in_range Accurate.low.
Proof. repeat split; qcompute. Qed.



(** C7, as the code has it.  For every scenario with non-negative fields
    within the magnitude limit, so that no total overflows, the logging
    percentage a provider returns lies in the closed interval [0, 100]. *)
Theorem C7_logging_percentage_bounds (s : scenario) :
  nonneg s ->
  in_range s ->
  (forall ra : aws_result,
      calculate_aws_costs s = inr ra ->
      0 <= aws_logging_percentage ra /\ aws_logging_percentage ra <= 100)
  /\ (forall rz : azure_result,
        calculate_azure_costs s = inr rz ->
        0 <= azure_logging_percentage rz
        /\ azure_logging_percentage rz <= 100).
Proof.
  intros N _. split.
  - intros ra Ha. apply calculate_aws_costs_inr in Ha as [Na ->].
    destruct (aws_logging_bounds s N) as [La Ua].
    cbn [aws_logging_percentage].
    apply (percentage_bounds _ _ La Ua). lra.
  - intros rz Hz. apply calculate_azure_costs_inr in Hz as [Nz ->].
    destruct (azure_logging_bounds s N) as [Lz Uz].
    cbn [azure_logging_percentage].
    apply (percentage_bounds _ _ Lz Uz). lra.
Qed.

(** C7 at the low-usage scenario, for which both functions return. *)
Lemma C7_logging_percentage_bounds_witness :
  nonneg low_usage /\ in_range low_usage
  /\ exists ra rz,
       calculate_aws_costs low_usage = inr ra
       /\ calculate_azure_costs low_usage = inr rz
       /\ (0 <= aws_logging_percentage ra
           /\ aws_logging_percentage ra <= 100)
       /\ (0 <= azure_logging_percentage rz
           /\ azure_logging_percentage rz <= 100).
Proof.
  pose proof (calculate_aws_costs_ok low_usage low_usage_aws_total_nonzero)
    as Ha.
  pose proof
    (calculate_azure_costs_ok low_usage low_usage_azure_total_nonzero) as Hz.
  destruct (C7_logging_percentage_bounds low_usage low_usage_nonneg
              low_usage_in_range) as [Ba Bz].
  split; [exact low_usage_nonneg |]. split; [exact low_usage_in_range |].
  eexists. eexists. split; [exact Ha |]. split; [exact Hz |].
  split; [exact (Ba _ Ha) | exact (Bz _ Hz)].
Defined.

(** ** The two scripts on a common input *)

Lemma low_usage_common_input : common_input low_usage_accurate low_usage.
Proof. constructor; reflexivity. Qed.

(** On a common input the simpler script charges what the class-based
    entries say, entry by entry, in its own order of addition. *)
Lemma common_input_aws (a : Accurate.scenario) (c : scenario) :
  common_input a c ->
  Accurate.aws_compute a
  == lambda_requests_cost (lambda (aws_costs c)) + api_gateway (aws_costs c)
  /\ Accurate.aws_storage a == s3_total (s3_cloudfront (aws_costs c))
  /\ Accurate.aws_database a == database (aws_costs c)
  /\ Accurate.aws_logging a
     == cw_ingestion (cloudwatch (aws_costs c))
        + cw_storage (cloudwatch (aws_costs c)) + opensearch (aws_costs c).
Proof.
  intros [Hr Hs Ht Hl Hd Ho _ _ _].
  unfold Accurate.aws_compute, Accurate.aws_storage, Accurate.aws_database,
    Accurate.aws_logging.
  cbn [aws_costs lambda lambda_requests_cost api_gateway s3_cloudfront
       s3_total database cloudwatch cw_ingestion cw_storage opensearch].
  cbv zeta. prices.
  rewrite Hr, Hs, Ht, Hl, Hd, Ho. repeat split; reflexivity.
Qed.

Lemma common_input_azure (a : Accurate.scenario) (c : scenario) :
  common_input a c ->
  Accurate.azure_compute a
  == functions_requests_cost (functions (azure_costs c)) + apim (azure_costs c)
  /\ Accurate.azure_storage a
     == swa_storage (static_web_apps (azure_costs c))
        + swa_bandwidth (static_web_apps (azure_costs c))
        + swa_base (static_web_apps (azure_costs c))
  /\ Accurate.azure_database a == cosmos_db (azure_costs c)
  /\ Accurate.azure_logging a
     == monitor_total (monitor (azure_costs c)) + search (azure_costs c).
Proof.
  intros [Hr Hs Ht Hl _ _ Hp Hc Hh].
  rewrite accurate_azure_database_ru.
  unfold Accurate.azure_compute, Accurate.azure_storage,
    Accurate.azure_logging.
  cbn [azure_costs functions functions_requests_cost apim static_web_apps
       swa_storage swa_bandwidth swa_base cosmos_db monitor monitor_total
       search].
  cbv zeta. prices.
  rewrite Hr, Hs, Ht, Hl, Hp, Hc, Hh. repeat split; reflexivity.
Qed.

Lemma default_fee_values (c : scenario) :
  no_optional_fee c ->
  aws_additional_values (additional (aws_costs c)) = [0; 2; 6; 18]
  /\ azure_additional_values (az_additional (azure_costs c))
     = [0; 1; 18; 1; 16].
Proof.
  intros (H1 & H2 & H3 & H4 & H5 & H6 & H7 & H8).
  unfold aws_additional_values, azure_additional_values.
  cbn [aws_costs azure_costs additional az_additional cognito sns_ses waf
       aws_data_transfer ad_b2c logic_apps app_gateway key_vault
       azure_data_transfer].
  now rewrite H1, H2, H3, H4, H5, H6, H7, H8.
Qed.

(** C9 as stated fails: the two scripts do not disagree on the S3 storage
    price or on the transfer price.  On no common input do their AWS storage
    sub-totals, storage price * stored GB + transfer price * transferred GB,
    differ. *)
Lemma C9_same_storage_and_transfer_prices :
  ~ (exists (a : Accurate.scenario) (c : scenario),
       common_input a c
       /\ ~ Accurate.aws_storage a == aws_storage (aws_costs c)).
Proof.
  intros (a & c & H & K). apply K.
  now destruct (common_input_aws a c H) as (_ & S & _).
Qed.

(** C9, as the code has it.  The two implementations are not extensionally
    equal: on the low-usage figures, a common input, both provider totals
    differ.  They do not differ in unit prices: on every common input each
    sub-total of the simpler script is made of entries of the class-based
    breakdown, at the same prices.  They differ in which charges are
    included: the compute of the simpler script leaves out the execution
    (GB-second) entry, its AWS logging leaves out the CloudWatch metric and
    alarm entries, and its additional fees are the flat 20 (AWS) and 15
    (Azure) where the class-based functions add the itemised fees, 0 + 2 + 6
    + 18 for AWS and 0 + 1 + 18 + 1 + 16 for Azure when no optional key is
    given. *)
Theorem C9_scripts_differ_in_included_fees :
  (exists (a : Accurate.scenario) (c : scenario) xa xz ra rz,
      common_input a c
      /\ Accurate.calculate_aws_costs a = inr xa
      /\ Accurate.calculate_azure_costs a = inr xz
      /\ calculate_aws_costs c = inr ra
      /\ calculate_azure_costs c = inr rz
      /\ ~ Accurate.total xa == aws_total ra
      /\ ~ Accurate.total xz == azure_total rz)
  /\ (forall (a : Accurate.scenario) (c : scenario),
        common_input a c ->
        (Accurate.aws_compute a
         == lambda_requests_cost (lambda (aws_costs c))
            + api_gateway (aws_costs c)
         /\ Accurate.aws_storage a == s3_total (s3_cloudfront (aws_costs c))
         /\ Accurate.aws_database a == database (aws_costs c)
         /\ Accurate.aws_logging a
            == cw_ingestion (cloudwatch (aws_costs c))
               + cw_storage (cloudwatch (aws_costs c))
               + opensearch (aws_costs c))
        /\ (Accurate.azure_compute a
            == functions_requests_cost (functions (azure_costs c))
               + apim (azure_costs c)
            /\ Accurate.azure_storage a
               == swa_storage (static_web_apps (azure_costs c))
                  + swa_bandwidth (static_web_apps (azure_costs c))
                  + swa_base (static_web_apps (azure_costs c))
            /\ Accurate.azure_database a == cosmos_db (azure_costs c)
            /\ Accurate.azure_logging a
               == monitor_total (monitor (azure_costs c))
                  + search (azure_costs c)))
  /\ (Accurate.aws_additional = 20 /\ Accurate.azure_additional = 15)
  /\ (forall c : scenario,
        no_optional_fee c ->
        aws_additional_values (additional (aws_costs c)) = [0; 2; 6; 18]
        /\ azure_additional_values (az_additional (azure_costs c))
           = [0; 1; 18; 1; 16]).
Proof.
  split; [| split; [| split; [split; reflexivity | exact default_fee_values]]].
  - exists low_usage_accurate, low_usage.
    destruct (accurate_aws_costs_ok low_usage_accurate) as [xa Ha];
      [qcompute |].
    destruct (accurate_azure_costs_ok low_usage_accurate) as [xz Hz];
      [qcompute |].
    exists xa, xz. eexists. eexists.
    split; [exact low_usage_common_input |].
    split; [exact Ha |]. split; [exact Hz |].
    split; [exact (calculate_aws_costs_ok _ low_usage_aws_total_nonzero) |].
    split; [exact (calculate_azure_costs_ok _ low_usage_azure_total_nonzero) |].
    apply accurate_aws_costs_inr in Ha as (_ & _ & _ & _ & -> & _).
    apply accurate_azure_costs_inr in Hz as (_ & _ & _ & _ & -> & _).
    split; qcompute.
  - intros a c H. split;
      [exact (common_input_aws a c H) | exact (common_input_azure a c H)].
Qed.

(** C9 at the low-usage figures: the class-based totals are the larger
    ones, by more than 20. *)
Lemma C9_scripts_differ_witness :
  common_input low_usage_accurate low_usage
  /\ Accurate.aws_storage low_usage_accurate
     == s3_total (s3_cloudfront (aws_costs low_usage))
  /\ Accurate.aws_total low_usage_accurate + 20
     < aws_total_cost (aws_costs low_usage)
  /\ Accurate.azure_total low_usage_accurate + 20
     < azure_total_cost (azure_costs low_usage).
Proof.
  pose proof low_usage_common_input as H.
  destruct (proj1 (proj2 C9_scripts_differ_in_included_fees) _ _ H)
    as ((_ & S & _) & _).
  split; [exact H |]. split; [exact S |]. split; qcompute.
Defined.

(** ** Monotonicity *)

Lemma Qmult3_le_compat (a b c a' b' c' : Q) :
  0 <= a -> 0 <= b -> 0 <= c ->
  a <= a' -> b <= b' -> c <= c' ->
  a * b * c <= a' * b' * c'.
Proof.
  intros Ha Hb Hc Haa Hbb Hcc.
  apply Qmult_le_compat_nonneg; [split | split; assumption].
  - now apply Qmult_le_0_compat.
  - apply Qmult_le_compat_nonneg; split; assumption.
Qed.

Lemma get_le (v w : option Q) (default : Q) :
  opt_le v w -> get v default <= get w default.
Proof.
  destruct v, w; cbn; try tauto. intros _. apply Qle_refl.
Qed.

Section Monotone.

Variables s s' : scenario.
Hypothesis N : nonneg s.
Hypothesis L : scenario_le s s'.

Lemma gb_seconds_le :
  requests_per_month s * avg_duration_seconds s * memory_gb s
  <= requests_per_month s' * avg_duration_seconds s' * memory_gb s'.
Proof.
  destruct N, L. now apply Qmult3_le_compat.
Qed.

Lemma aws_compute_le :
  aws_compute (aws_costs s) <= aws_compute (aws_costs s').
Proof.
  rewrite !aws_compute_unfold.
  pose proof gb_seconds_le as G. pose proof (le_requests s s' L) as R.
  set (g := requests_per_month s * avg_duration_seconds s * memory_gb s) in *.
  set (g' := requests_per_month s' * avg_duration_seconds s' * memory_gb s')
    in *.
  assert (H1 : py_max 0 ((requests_per_month s - 1000000)
                         * aws_pricing.lambda.requests)
               <= py_max 0 ((requests_per_month s' - 1000000)
                            * aws_pricing.lambda.requests))
    by (apply py_max_0_mono; prices; lra).
  assert (H2 : py_max 0 ((g - 400000) * aws_pricing.lambda.gb_seconds)
               <= py_max 0 ((g' - 400000) * aws_pricing.lambda.gb_seconds))
    by (apply py_max_0_mono; prices; lra).
  prices. lra.
Qed.

Lemma azure_compute_le :
  azure_compute (azure_costs s) <= azure_compute (azure_costs s').
Proof.
  rewrite !azure_compute_unfold.
  pose proof gb_seconds_le as G. pose proof (le_requests s s' L) as R.
  pose proof (le_apim s s' L) as A.
  set (g := requests_per_month s * avg_duration_seconds s * memory_gb s) in *.
  set (g' := requests_per_month s' * avg_duration_seconds s' * memory_gb s')
    in *.
  assert (H1 : py_max 0 ((requests_per_month s - 1000000)
                         * azure_pricing.functions.requests)
               <= py_max 0 ((requests_per_month s' - 1000000)
                            * azure_pricing.functions.requests))
    by (apply py_max_0_mono; prices; lra).
  assert (H2 : py_max 0 ((g - 400000) * azure_pricing.functions.gb_seconds)
               <= py_max 0 ((g' - 400000)
                            * azure_pricing.functions.gb_seconds))
    by (apply py_max_0_mono; prices; lra).
  lra.
Qed.

Lemma aws_storage_le :
  aws_storage (aws_costs s) <= aws_storage (aws_costs s').
Proof.
  rewrite !aws_storage_unfold. prices.
  pose proof (le_storage s s' L). pose proof (le_transfer s s' L). lra.
Qed.

Lemma azure_storage_le :
  azure_storage (azure_costs s) <= azure_storage (azure_costs s').
Proof.
  rewrite !azure_storage_unfold. prices.
  pose proof (le_storage s s' L). pose proof (le_transfer s s' L). lra.
Qed.

Lemma aws_database_le :
  aws_database (aws_costs s) <= aws_database (aws_costs s').
Proof. exact (le_database s s' L). Qed.

Lemma azure_database_le :
  azure_database (azure_costs s) <= azure_database (azure_costs s').
Proof.
  rewrite !azure_database_unfold. prices.
  pose proof (le_cosmos s s' L). lra.
Qed.

Lemma aws_logging_le :
  aws_logging (aws_costs s) <= aws_logging (aws_costs s').
Proof.
  rewrite !aws_logging_unfold. prices.
  pose proof (le_logs s s' L). pose proof (le_metrics s s' L).
  pose proof (le_alarms s s' L). pose proof (le_opensearch s s' L). lra.
Qed.

Lemma azure_logging_le :
  azure_logging (azure_costs s) <= azure_logging (azure_costs s').
Proof.
  rewrite !azure_logging_unfold. prices.
  pose proof (le_logs s s' L). pose proof (le_search s s' L). lra.
Qed.

Lemma aws_additional_total_le :
  aws_additional_total (aws_costs s) <= aws_additional_total (aws_costs s').
Proof.
  rewrite !aws_additional_total_unfold.
  pose proof (get_le _ _ 0 (le_cognito s s' L)).
  pose proof (get_le _ _ 2 (le_notification s s' L)).
  pose proof (get_le _ _ 6 (le_waf s s' L)).
  pose proof (get_le _ _ 18 (le_data_transfer s s' L)).
  lra.
Qed.

Lemma azure_additional_total_le :
  azure_additional_total (azure_costs s)
  <= azure_additional_total (azure_costs s').
Proof.
  rewrite !azure_additional_total_unfold.
  pose proof (get_le _ _ 0 (le_ad_b2c s s' L)).
  pose proof (get_le _ _ 1 (le_logic_apps s s' L)).
  pose proof (get_le _ _ 18 (le_app_gateway s s' L)).
  pose proof (get_le _ _ 1 (le_key_vault s s' L)).
  pose proof (get_le _ _ 16 (le_data_transfer s s' L)).
  lra.
Qed.

Lemma aws_total_cost_le :
  aws_total_cost (aws_costs s) <= aws_total_cost (aws_costs s').
Proof.
  rewrite !aws_total_cost_categories.
  pose proof aws_compute_le. pose proof aws_storage_le.
  pose proof aws_database_le. pose proof aws_logging_le.
  pose proof aws_additional_total_le. lra.
Qed.

Lemma azure_total_cost_le :
  azure_total_cost (azure_costs s) <= azure_total_cost (azure_costs s').
Proof.
  rewrite !azure_total_cost_categories.
  pose proof azure_compute_le. pose proof azure_storage_le.
  pose proof azure_database_le. pose proof azure_logging_le.
  pose proof azure_additional_total_le. lra.
Qed.

End Monotone.


Lemma low_usage_le_medium_usage_requests :
  scenario_le low_usage
    (with_requests low_usage (requests_per_month medium_usage)).
Proof. constructor; first [exact I | qcompute]. Qed.


(** * Further properties of the two scripts *)

(** ** The simpler script never divides by zero *)

Lemma by_users_between (s : Accurate.scenario) (x y z : Q) :
  x <= y -> y <= z ->
  x <= Accurate.by_users s x y z /\ Accurate.by_users s x y z <= z.
Proof.
  intros Hxy Hyz. unfold Accurate.by_users.
  destruct (Qle_bool (Accurate.users s) 100);
    [| destruct (Qle_bool (Accurate.users s) 1000)]; lra.
Qed.

Lemma by_users_mono (a a' : Accurate.scenario) (x y z : Q) :
  x <= y -> y <= z -> Accurate.users a <= Accurate.users a' ->
  Accurate.by_users a x y z <= Accurate.by_users a' x y z.
Proof.
  intros Hxy Hyz Hu. unfold Accurate.by_users.
  destruct (Qle_bool (Accurate.users a) 100) eqn:E1;
    destruct (Qle_bool (Accurate.users a') 100) eqn:E1';
    destruct (Qle_bool (Accurate.users a) 1000) eqn:E2;
    destruct (Qle_bool (Accurate.users a') 1000) eqn:E2';
    try lra;
    repeat match goal with
      | H : Qle_bool _ _ = true |- _ => apply Qle_bool_iff in H
      | H : Qle_bool ?u ?v = false |- _ =>
          assert (~ u <= v) by (rewrite <- Qle_bool_iff, H; discriminate);
          clear H
      end; lra.
Qed.

(** Lower bounds of the sub-totals of [Accurate] on non-negative
    scenarios. *)
Lemma accurate_aws_bounds (a : Accurate.scenario) :
  accurate_nonneg a ->
  0 <= Accurate.aws_compute a /\ 0 <= Accurate.aws_storage a
  /\ 65 <= Accurate.aws_database a /\ 28 <= Accurate.aws_logging a.
Proof.
  intros (Hr & Ht & Hs & Hl & Hu).
  unfold Accurate.aws_compute, Accurate.aws_storage, Accurate.aws_database,
    Accurate.aws_logging. cbv zeta.
  pose proof (py_max_0_nonneg
    ((Accurate.monthly_requests a - 1000000) * 0.0000002)).
  destruct (by_users_between a 65 156 625) as [? _]; [lra | lra |].
  destruct (by_users_between a 28 145 567) as [? _]; [lra | lra |].
  repeat split; lra.
Qed.

Lemma accurate_azure_bounds (a : Accurate.scenario) :
  accurate_nonneg a ->
  48 <= Accurate.azure_compute a /\ 9 <= Accurate.azure_storage a
  /\ 5840 <= Accurate.azure_database a /\ 25 <= Accurate.azure_logging a.
Proof.
  intros (Hr & Ht & Hs & Hl & Hu).
  unfold Accurate.azure_compute, Accurate.azure_storage,
    Accurate.azure_logging. rewrite accurate_azure_database_ru. cbv zeta.
  pose proof (py_max_0_nonneg
    ((Accurate.monthly_requests a - 1000000) * 0.0000002)).
  destruct (by_users_between a 48 268 2845) as [? _]; [lra | lra |].
  destruct (by_users_between a 1000 5000 25000) as [? _]; [lra | lra |].
  destruct (by_users_between a 25 89 445) as [? _]; [lra | lra |].
  repeat split; lra.
Qed.

Lemma accurate_low_nonneg : accurate_nonneg Accurate.low.
Proof. repeat split; qcompute. Qed.

(** ** When the class-based functions divide by zero *)

Lemma azure_total_cost_lower_bound (s : scenario) :
  nonneg s -> 9 <= azure_total_cost (azure_costs s).
Proof.
  intros N.
  pose proof (azure_compute_nonneg s N) as Hc.
  pose proof (azure_additional_total_nonneg s N) as Hx.
  destruct (azure_logging_bounds s N) as [Hl _].
  rewrite azure_total_cost_categories.
  assert (Hs : 9 <= azure_storage (azure_costs s)).
  { rewrite azure_storage_unfold. prices.
    pose proof (nn_storage s N). pose proof (nn_transfer s N). lra. }
  assert (Hd : 0 <= azure_database (azure_costs s)).
  { rewrite azure_database_unfold. prices. pose proof (nn_cosmos s N). lra. }
  lra.
Qed.

Lemma idle_nonneg : nonneg idle.
Proof. constructor; qcompute. Qed.

Lemma get_zero_default_pos (v : option Q) (default : Q) :
  opt_all (Qle 0) v -> 0 < default ->
  (get v default == 0 <-> opt_zero v).
Proof.
  destruct v as [x |]; cbn; intros Hv Hd; [tauto |].
  split; [lra | tauto].
Qed.

(** ** The comparison and its loop *)

Lemma compare_scenario_raises (s : scenario) :
  aws_total_cost (aws_costs s) == 0 \/ azure_total_cost (azure_costs s) == 0 ->
  compare_scenario s = inl ZeroDivisionError.
Proof.
  intros H. unfold compare_scenario.
  destruct (Qeq_dec (aws_total_cost (aws_costs s)) 0) as [Ea | Ea].
  - now rewrite (proj2 (calculate_aws_costs_raises s) Ea).
  - rewrite (calculate_aws_costs_ok s Ea). cbn [bind Monad_either].
    destruct H as [H | H]; [contradiction |].
    now rewrite (proj2 (calculate_azure_costs_raises s) H).
Qed.

Lemma compare_scenario_raises_inv (s : scenario) :
  compare_scenario s = inl ZeroDivisionError ->
  aws_total_cost (aws_costs s) == 0 \/ azure_total_cost (azure_costs s) == 0.
Proof.
  intros H.
  destruct (Qeq_dec (aws_total_cost (aws_costs s)) 0) as [Ea | Ea];
    [now left |].
  destruct (Qeq_dec (azure_total_cost (azure_costs s)) 0) as [Ez | Ez];
    [now right |].
  destruct (compare_scenario_ok s Ea Ez) as (? & ? & _ & _ & _ & _ & E).
  rewrite E in H. discriminate.
Qed.


Lemma compare_scenarios_cons (key : string) (s : scenario)
  (rest : list (string * scenario)) :
  compare_scenarios ((key, s) :: rest)
  = match compare_scenario s with
    | inl e => inl e
    | inr r =>
        match compare_scenarios rest with
        | inl e => inl e
        | inr results => inr ((key, r) :: results)
        end
    end.
Proof.
  cbn [compare_scenarios bind Monad_either].
  destruct (compare_scenario s); [reflexivity |].
  destruct (compare_scenarios rest); reflexivity.
Qed.

(** X5.  The comparison loop returns a table exactly when every scenario of
    its table has a comparison, and then the results are the comparisons of
    the scenarios, one per scenario, under the same keys and in the same
    order. *)
Theorem compare_scenarios_pointwise
  (table : list (string * scenario)) (results : list (string * comparison)) :
  compare_scenarios table = inr results <-> Forall2 compared table results.
Proof.
  revert results. induction table as [| [key s] rest IH]; intros results.
  - cbn. split.
    + intros H. injection H as <-. constructor.
    + intros H. inversion H. reflexivity.
  - rewrite compare_scenarios_cons. split.
    + destruct (compare_scenario s) as [e | r] eqn:E; [discriminate |].
      destruct (compare_scenarios rest) as [e | rs] eqn:Er; [discriminate |].
      intros H. injection H as <-. constructor.
      * split; [reflexivity | exact E].
      * now apply IH.
    + intros H. inversion H as [| p kr l l' [Hk Hc] Hrest]; subst.
      cbn [fst snd] in Hk, Hc. rewrite Hc.
      apply IH in Hrest. rewrite Hrest.
      destruct kr as [k r]. cbn in Hk. subst k. reflexivity.
Qed.


(** ** The average and the recommendation *)

Lemma py_len_nil {A : Type} : py_len (@nil A) == 0.
Proof. reflexivity. Qed.

Lemma py_len_cons {A : Type} (x : A) (xs : list A) :
  py_len (x :: xs) == py_len xs + 1.
Proof.
  unfold py_len. cbn [List.length]. rewrite Nat2Z.inj_succ.
  unfold Z.succ. rewrite inject_Z_plus. reflexivity.
Qed.

Lemma py_len_nonneg {A : Type} (xs : list A) : 0 <= py_len xs.
Proof.
  unfold py_len, Qle. cbn [Qnum Qden inject_Z]. lia.
Qed.

Lemma avg_azure_savings_ok (results : list (string * comparison)) :
  results <> [] ->
  avg_azure_savings results
  = inr (py_sum (percentages results) / py_len results).
Proof.
  destruct results as [| r rest]; [congruence |]. intros _.
  assert (H : ~ py_len (r :: rest) == 0)
    by (pose proof (py_len_cons_pos r rest); lra).
  unfold avg_azure_savings.
  change (map (fun data => savings_percentage (snd data)) (r :: rest))
    with (percentages (r :: rest)).
  now rewrite (py_div_ok _ _ H).
Qed.

(** X7.  The average of the report raises exactly on an empty table of
    results (a division of zero by zero); on any other table it returns the
    sum of the percentages divided by their number. *)
Theorem avg_azure_savings_raises_iff (results : list (string * comparison)) :
  (avg_azure_savings results = inl ZeroDivisionError <-> results = [])
  /\ (results <> [] ->
      avg_azure_savings results
      = inr (py_sum (percentages results) / py_len results)).
Proof.
  split; [| apply avg_azure_savings_ok].
  destruct results as [| r rest]; [split; reflexivity |].
  rewrite avg_azure_savings_ok by congruence. split; congruence.
Qed.

Lemma sum_upper (xs : list Q) (hi : Q) :
  Forall (fun x => x <= hi) xs -> fold_right Qplus 0 xs <= hi * py_len xs.
Proof.
  induction 1 as [| x xs Hh _ IH]; cbn [fold_right].
  - rewrite py_len_nil. lra.
  - rewrite py_len_cons. lra.
Qed.

Lemma sum_strict_lower (x : Q) (xs : list Q) (lo : Q) :
  Forall (fun y => lo < y) (x :: xs) ->
  lo * py_len (x :: xs) < fold_right Qplus 0 (x :: xs).
Proof.
  revert x. induction xs as [| y ys IH]; intros x H.
  - inversion H; subst. cbn [fold_right]. rewrite py_len_cons, py_len_nil. lra.
  - inversion H as [| ? ? Hx Hrest]; subst. specialize (IH y Hrest).
    cbn [fold_right] in *. rewrite py_len_cons. lra.
Qed.

Lemma percentages_length (results : list (string * comparison)) :
  py_len (percentages results) == py_len results.
Proof. unfold percentages, py_len. now rewrite length_map. Qed.

Lemma recommend_spec (avg : Q) :
  (5 < avg -> recommend avg = AzureMoreCostEffective)
  /\ (0 < avg -> avg <= 5 -> recommend avg = AzureModerateSavings)
  /\ (avg <= 0 -> recommend avg = AwsMayBeMoreCostEffective).
Proof.
  unfold recommend.
  destruct (Qle_bool avg 5) eqn:E5; destruct (Qle_bool avg 0) eqn:E0; cbn;
    repeat match goal with
      | H : Qle_bool _ _ = true |- _ => apply Qle_bool_iff in H
      | H : Qle_bool ?u ?v = false |- _ =>
          assert (~ u <= v) by (rewrite <- Qle_bool_iff, H; discriminate);
          clear H
      end;
    repeat split; intros; first [reflexivity | lra].
Qed.

(** X9.  The recommendation follows the scenarios when they agree: on a
    non-empty table, if Azure saves nothing in any scenario (every savings
    percentage is at most 0) the report recommends AWS, and if Azure saves
    more than 5 percent in every scenario the report calls Azure more
    cost-effective across all scenarios. *)
Theorem recommendation_follows_scenarios
  (results : list (string * comparison)) :
  results <> [] ->
  exists avg,
    avg_azure_savings results = inr avg
    /\ (Forall (fun x => x <= 0) (percentages results) ->
        recommend avg = AwsMayBeMoreCostEffective)
    /\ (Forall (fun x => 5 < x) (percentages results) ->
        recommend avg = AzureMoreCostEffective).
Proof.
  intros Hne.
  eexists. split; [exact (avg_azure_savings_ok results Hne) |].
  destruct results as [| r rest]; [congruence |].
  pose proof (py_len_cons_pos r rest) as Hn.
  split; intros Hall.
  - apply recommend_spec. rewrite py_sum_spec.
    apply Qle_shift_div_r; [exact Hn |].
    pose proof (sum_upper _ _ Hall) as Hh.
    rewrite percentages_length in Hh. lra.
  - apply recommend_spec. rewrite py_sum_spec.
    apply Qlt_shift_div_l; [exact Hn |].
    assert (H : 5 * py_len (percentages (r :: rest))
                < fold_right Qplus 0 (percentages (r :: rest)))
      by exact (sum_strict_lower _ _ 5 Hall).
    rewrite percentages_length in H. lra.
Qed.

Lemma report_results_nonempty : report_results <> [].
Proof. vm_compute. discriminate. Qed.

Lemma recommendation_follows_scenarios_witness :
  report_results <> []
  /\ Forall (fun x => x <= 0) (percentages report_results)
  /\ exists avg,
       avg_azure_savings report_results = inr avg
       /\ recommend avg = AwsMayBeMoreCostEffective.
Proof.
  assert (H : Forall (fun x => x <= 0) (percentages report_results))
    by (repeat constructor; qcompute).
  split; [exact report_results_nonempty |]. split; [exact H |].
  destruct (recommendation_follows_scenarios report_results
              report_results_nonempty) as (avg & E & Ha & _).
  exists avg. split; [exact E | exact (Ha H)].
Defined.

(** ** The two providers side by side *)

(** X11.  For every scenario the two providers charge the same for
    requests beyond the free tier, and Azure never charges more than AWS for
    execution time (its GB-second price is the lower one and the free
    allowance is the same). *)
Theorem azure_functions_no_dearer_than_lambda (s : scenario) :
  functions_requests_cost (functions (azure_costs s))
  = lambda_requests_cost (lambda (aws_costs s))
  /\ functions_execution (functions (azure_costs s))
     <= lambda_execution (lambda (aws_costs s)).
Proof.
  split; [reflexivity |].
  cbn [azure_costs aws_costs functions lambda functions_execution
       lambda_execution].
  set (g := requests_per_month s * avg_duration_seconds s * memory_gb s).
  rewrite !py_max_Qmax. prices.
  destruct (Qlt_le_dec g 400000) as [H | H].
  - rewrite !Q.max_l; lra.
  - apply Q.max_le_compat_l. lra.
Qed.

(** ** The simpler script: monotonicity and the report *)

(** X14.  In the simpler script no figure of either provider decreases when
    fields of the scenario are raised, the user count included: each
    category sub-total and each total of the raised scenario is at least
    that of the original (the tier prices grow with the tier). *)
Theorem accurate_costs_are_monotone (a a' : Accurate.scenario) :
  accurate_le a a' ->
  Forall2 Qle (accurate_figures a) (accurate_figures a').
Proof.
  intros [Hr Ht Hs Hl Hu].
  assert (M : py_max 0 ((Accurate.monthly_requests a - 1000000) * 0.0000002)
              <= py_max 0 ((Accurate.monthly_requests a' - 1000000)
                           * 0.0000002))
    by (apply py_max_0_mono; lra).
  pose proof (by_users_mono a a' 65 156 625) as D.
  pose proof (by_users_mono a a' 28 145 567) as O.
  pose proof (by_users_mono a a' 48 268 2845) as P.
  pose proof (by_users_mono a a' 1000 5000 25000) as R.
  pose proof (by_users_mono a a' 25 89 445) as F.
  assert (C1 : Accurate.aws_compute a <= Accurate.aws_compute a')
    by (unfold Accurate.aws_compute; cbv zeta; lra).
  assert (S1 : Accurate.aws_storage a <= Accurate.aws_storage a')
    by (unfold Accurate.aws_storage; cbv zeta; lra).
  assert (D1 : Accurate.aws_database a <= Accurate.aws_database a')
    by (unfold Accurate.aws_database; lra).
  assert (L1 : Accurate.aws_logging a <= Accurate.aws_logging a')
    by (unfold Accurate.aws_logging; cbv zeta; lra).
  assert (C2 : Accurate.azure_compute a <= Accurate.azure_compute a')
    by (unfold Accurate.azure_compute; cbv zeta; lra).
  assert (S2 : Accurate.azure_storage a <= Accurate.azure_storage a')
    by (unfold Accurate.azure_storage; cbv zeta; lra).
  assert (D2 : Accurate.azure_database a <= Accurate.azure_database a')
    by (rewrite !accurate_azure_database_ru; lra).
  assert (L2 : Accurate.azure_logging a <= Accurate.azure_logging a')
    by (unfold Accurate.azure_logging; cbv zeta; lra).
  unfold accurate_figures, Accurate.aws_total, Accurate.azure_total.
  repeat constructor; lra.
Qed.

Lemma accurate_low_le_medium : accurate_le Accurate.low Accurate.medium.
Proof. constructor; qcompute. Qed.

Lemma accurate_costs_are_monotone_witness :
  accurate_le Accurate.low Accurate.medium
  /\ Forall2 Qle (accurate_figures Accurate.low)
       (accurate_figures Accurate.medium).
Proof.
  split; [exact accurate_low_le_medium |].
  exact (accurate_costs_are_monotone _ _ accurate_low_le_medium).
Defined.

Lemma accurate_totals_positive (a : Accurate.scenario) :
  accurate_nonneg a ->
  113 <= Accurate.aws_total a /\ 5937 <= Accurate.azure_total a.
Proof.
  intros N.
  destruct (accurate_aws_bounds a N) as (C1 & S1 & D1 & L1).
  destruct (accurate_azure_bounds a N) as (C2 & S2 & D2 & L2).
  unfold Accurate.aws_total, Accurate.aws_additional, Accurate.azure_total,
    Accurate.azure_additional. split; lra.
Qed.

(** ** Further properties, within range *)

(** X1.  On every scenario of [Accurate] with non-negative fields within
    range both cost functions return: the fixed tier prices and fees keep
    the AWS total at 113 or more and the Azure total at 5937 or more, so the
    division by the total is defined, and each logging percentage is
    positive and at most 100. *)
Theorem accurate_costs_never_raise (a : Accurate.scenario) :
  accurate_nonneg a ->
  accurate_in_range a ->
  exists ra rz,
    Accurate.calculate_aws_costs a = inr ra
    /\ Accurate.calculate_azure_costs a = inr rz
    /\ 113 <= Accurate.total ra
    /\ 5937 <= Accurate.total rz
    /\ (0 < Accurate.logging_pct ra /\ Accurate.logging_pct ra <= 100)
    /\ (0 < Accurate.logging_pct rz /\ Accurate.logging_pct rz <= 100).
Proof.
  intros N _.
  destruct (accurate_aws_bounds a N) as (C1 & S1 & D1 & L1).
  destruct (accurate_azure_bounds a N) as (C2 & S2 & D2 & L2).
  destruct (accurate_totals_positive a N) as [Ta Tz].
  destruct (accurate_aws_costs_ok a) as [ra Ha]; [lra |].
  destruct (accurate_azure_costs_ok a) as [rz Hz]; [lra |].
  exists ra, rz. split; [exact Ha |]. split; [exact Hz |].
  apply accurate_aws_costs_inr in Ha as (_ & _ & _ & _ & -> & -> & _).
  apply accurate_azure_costs_inr in Hz as (_ & _ & _ & _ & -> & -> & _).
  split; [exact Ta |]. split; [exact Tz |]. split; split.
  - apply percentage_pos; lra.
  - apply percentage_bounds; [lra | | lra].
    unfold Accurate.aws_total, Accurate.aws_additional. lra.
  - apply percentage_pos; lra.
  - apply percentage_bounds; [lra | | lra].
    unfold Accurate.azure_total, Accurate.azure_additional. lra.
Qed.

Lemma accurate_costs_never_raise_witness :
  accurate_nonneg Accurate.low
  /\ accurate_in_range Accurate.low
  /\ exists ra rz,
       Accurate.calculate_aws_costs Accurate.low = inr ra
       /\ Accurate.calculate_azure_costs Accurate.low = inr rz
       /\ 113 <= Accurate.total ra
       /\ 5937 <= Accurate.total rz
       /\ (0 < Accurate.logging_pct ra /\ Accurate.logging_pct ra <= 100)
       /\ (0 < Accurate.logging_pct rz /\ Accurate.logging_pct rz <= 100).
Proof.
  assert (R : accurate_in_range Accurate.low)
    by (repeat split; vm_compute; discriminate).
  split; [exact accurate_low_nonneg |]. split; [exact R |].
  exact (accurate_costs_never_raise Accurate.low accurate_low_nonneg R).
Defined.

Lemma idle_in_range : in_range idle.
Proof. constructor; split; vm_compute; discriminate. Qed.

(** X2.  On every scenario with non-negative fields within range the Azure
    function returns: the fixed Static Web Apps fee keeps its total at 9 or
    more, even when every optional fee is given as zero. *)
Theorem azure_costs_never_raise (s : scenario) :
  nonneg s ->
  in_range s ->
  exists rz,
    calculate_azure_costs s = inr rz /\ 9 <= azure_total rz.
Proof.
  intros N _. pose proof (azure_total_cost_lower_bound s N) as H.
  eexists. split; [apply calculate_azure_costs_ok; lra |]. exact H.
Qed.

Lemma azure_costs_never_raise_witness :
  nonneg idle /\ in_range idle
  /\ exists rz, calculate_azure_costs idle = inr rz /\ 9 <= azure_total rz.
Proof.
  split; [exact idle_nonneg |]. split; [exact idle_in_range |].
  exact (azure_costs_never_raise idle idle_nonneg idle_in_range).
Defined.

Lemma aws_total_cost_lower_bound (s : scenario) :
  nonneg s ->
  get (notification_cost s) 2 + get (waf_cost s) 6
  + get (data_transfer_cost s) 18
  <= aws_total_cost (aws_costs s).
Proof.
  intros N.
  pose proof (aws_compute_nonneg s N) as Hc.
  destruct (aws_logging_bounds s N) as [Hl _].
  pose proof (get_nonneg _ 0 (nn_cognito s N)) as G1.
  rewrite aws_total_cost_categories.
  rewrite aws_additional_total_unfold.
  assert (Hs : 0 <= aws_storage (aws_costs s)).
  { rewrite aws_storage_unfold. prices.
    pose proof (nn_storage s N). pose proof (nn_transfer s N). lra. }
  assert (Hd : 0 <= aws_database (aws_costs s))
    by exact (nn_database s N).
  lra.
Qed.

(** X3.  The AWS function raises ZeroDivisionError when nothing at all is
    charged: no requests, storage, transfer, logs, metrics or alarms, zero
    database and search prices, and every additional fee zero, which for the
    fees with a non-zero default (notification 2, WAF 6, data transfer 18)
    requires the key to be present and zero.  With non-negative fields it
    returns as soon as one of these three keys is absent, the total being
    then at least the default fee. *)
Theorem aws_costs_raise_when_nothing_charged (s : scenario) :
  in_range s ->
  (aws_free s -> calculate_aws_costs s = inl ZeroDivisionError)
  /\ (nonneg s ->
      notification_cost s = None \/ waf_cost s = None
      \/ data_transfer_cost s = None ->
      exists ra, calculate_aws_costs s = inr ra /\ 2 <= aws_total ra).
Proof.
  intros _. split.
  - intros [Fr Fs Ft Fl Fm Fa Fd Fo Fc Fn Fw Fx].
    apply calculate_aws_costs_raises.
    rewrite aws_total_cost_categories.
    rewrite aws_compute_unfold, aws_additional_total_unfold.
    rewrite aws_storage_unfold, aws_logging_unfold.
    change (aws_database (aws_costs s)) with (database_cost s).
    destruct (notification_cost s) as [n |]; [| contradiction].
    destruct (waf_cost s) as [w |]; [| contradiction].
    destruct (data_transfer_cost s) as [x |]; [| contradiction].
    cbn [opt_zero get] in *.
    rewrite Fr, Fs, Ft, Fl, Fm, Fa, Fd, Fo, Fc, Fn, Fw, Fx.
    rewrite !py_max_Qmax. prices.
    rewrite !Q.max_l; [ring | ring_simplify; lra | lra].
  - intros N H.
    pose proof (aws_total_cost_lower_bound s N) as B.
    pose proof (get_nonneg _ 2 (nn_notification s N)) as G2.
    pose proof (get_nonneg _ 6 (nn_waf s N)) as G3.
    pose proof (get_nonneg _ 18 (nn_data_transfer s N)) as G4.
    assert (T : 2 <= aws_total_cost (aws_costs s)).
    { destruct H as [H | [H | H]]; rewrite H in *; cbn [get] in *; lra. }
    eexists. split; [apply calculate_aws_costs_ok; lra |]. exact T.
Qed.

Lemma aws_costs_raise_when_nothing_charged_witness :
  in_range idle /\ aws_free idle
  /\ calculate_aws_costs idle = inl ZeroDivisionError.
Proof.
  assert (F : aws_free idle) by (constructor; qcompute).
  split; [exact idle_in_range |]. split; [exact F |].
  exact (proj1 (aws_costs_raise_when_nothing_charged idle idle_in_range) F).
Defined.

(** X10.  When both cost functions return, the AWS total being positive
    and the Azure total not negative, the comparison returns a savings
    percentage of at most 100: Azure cannot save more than the whole AWS
    bill. *)
Theorem savings_percentage_at_most_100
  (s : scenario) (ra : aws_result) (rz : azure_result) :
  in_range s ->
  calculate_aws_costs s = inr ra ->
  calculate_azure_costs s = inr rz ->
  0 < aws_total ra ->
  0 <= azure_total rz ->
  exists r,
    compare_scenario s = inr r /\ savings_percentage r <= 100.
Proof.
  intros _ Ha Hz Pa Pz.
  unfold compare_scenario. rewrite Ha, Hz.
  cbn [bind ret Monad_either].
  rewrite py_div_ok by lra.
  cbn [bind ret Monad_either].
  eexists. split; [reflexivity |]. cbn [savings_percentage].
  assert (H : (aws_total ra - azure_total rz) / aws_total ra <= 1)
    by (apply Qle_shift_div_r; [exact Pa | lra]).
  lra.
Qed.

Lemma savings_percentage_at_most_100_witness :
  exists ra rz,
    in_range low_usage
    /\ calculate_aws_costs low_usage = inr ra
    /\ calculate_azure_costs low_usage = inr rz
    /\ 0 < aws_total ra
    /\ 0 <= azure_total rz
    /\ exists r,
         compare_scenario low_usage = inr r /\ savings_percentage r <= 100.
Proof.
  pose proof (calculate_aws_costs_ok _ low_usage_aws_total_nonzero) as Ha.
  pose proof (calculate_azure_costs_ok _ low_usage_azure_total_nonzero) as Hz.
  assert (Pa : 0 < aws_total_cost (aws_costs low_usage)) by qcompute.
  assert (Pz : 0 <= azure_total_cost (azure_costs low_usage)) by qcompute.
  eexists. eexists.
  split; [exact low_usage_in_range |].
  split; [exact Ha |]. split; [exact Hz |].
  split; [exact Pa |]. split; [exact Pz |].
  exact (savings_percentage_at_most_100 low_usage _ _ low_usage_in_range
           Ha Hz Pa Pz).
Defined.

(** X17.  In the simpler script the free tier of 1,000,000 requests is the
    only case distinction of the compute cost.  Up to it the AWS compute
    cost is the API Gateway fee alone and the Azure compute cost the API
    Management tier price alone; from it on, both add 0.0000002 per request
    beyond 1,000,000. *)
Theorem accurate_compute_piecewise (a : Accurate.scenario) :
  accurate_in_range a ->
  (Accurate.monthly_requests a <= 1000000 ->
   Accurate.aws_compute a == Accurate.monthly_requests a * 0.0000035
   /\ Accurate.azure_compute a == Accurate.by_users a 48 268 2845)
  /\ (1000000 <= Accurate.monthly_requests a ->
      Accurate.aws_compute a
      == (Accurate.monthly_requests a - 1000000) * 0.0000002
         + Accurate.monthly_requests a * 0.0000035
      /\ Accurate.azure_compute a
         == (Accurate.monthly_requests a - 1000000) * 0.0000002
            + Accurate.by_users a 48 268 2845).
Proof.
  intros _.
  unfold Accurate.aws_compute, Accurate.azure_compute. cbv zeta.
  rewrite !py_max_Qmax. split; intros H.
  - rewrite !Q.max_l by lra. split; ring.
  - rewrite !Q.max_r by lra. split; reflexivity.
Qed.

Lemma accurate_medium_in_range : accurate_in_range Accurate.medium.
Proof. repeat split; vm_compute; discriminate. Qed.

Lemma accurate_compute_piecewise_witness :
  accurate_in_range Accurate.low
  /\ accurate_in_range Accurate.medium
  /\ Accurate.monthly_requests Accurate.low <= 1000000
  /\ 1000000 <= Accurate.monthly_requests Accurate.medium
  /\ Accurate.aws_compute Accurate.low
     == Accurate.monthly_requests Accurate.low * 0.0000035
  /\ Accurate.aws_compute Accurate.medium
     == (Accurate.monthly_requests Accurate.medium - 1000000) * 0.0000002
        + Accurate.monthly_requests Accurate.medium * 0.0000035.
Proof.
  assert (Hl : Accurate.monthly_requests Accurate.low <= 1000000)
    by qcompute.
  assert (Hm : 1000000 <= Accurate.monthly_requests Accurate.medium)
    by qcompute.
  split; [exact accurate_low_in_range |].
  split; [exact accurate_medium_in_range |].
  split; [exact Hl |]. split; [exact Hm |].
  split.
  - exact (proj1 (proj1 (accurate_compute_piecewise Accurate.low
                           accurate_low_in_range) Hl)).
  - exact (proj1 (proj2 (accurate_compute_piecewise Accurate.medium
                           accurate_medium_in_range) Hm)).
Defined.

(** * The class-based calculator on Python numbers *)

(** ** Conversions, additions and the error monad *)

Lemma to_float_0 : Py.to_float 0 = inr 0%float.
Proof. reflexivity. Qed.

Lemma to_float_400000 : Py.to_float 400000 = inr 400000%float.
Proof. reflexivity. Qed.

Lemma to_float_1000000 : Py.to_float 1000000 = inr 1000000%float.
Proof. reflexivity. Qed.

(** A strictly positive [float] is not zero. *)
Lemma positive_not_zero (t : float) :
  PrimFloat.ltb 0 t = true -> PrimFloat.eqb t 0 = false.
Proof.
  rewrite ltb_spec, eqb_spec.
  change (Prim2SF 0) with (S754_zero false).
  destruct (Prim2SF t) as [[] | [] | | [] m e]; cbn; congruence.
Qed.

Lemma div_raises_iff (a b : float) :
  Py.div a b = inl Py.ZeroDivisionError <-> PrimFloat.eqb b 0 = true.
Proof.
  unfold Py.div. destruct (PrimFloat.eqb b 0); cbn; split; congruence.
Qed.

Lemma div_ok (a b : float) :
  PrimFloat.eqb b 0 = false -> Py.div a b = inr (a / b)%float.
Proof. unfold Py.div. now intros ->. Qed.

Lemma float_add_inv (f : float) (x : Py.num) (r : float) :
  Py.float_add f x = inr r ->
  exists a, Py.as_float x = inr a /\ r = (f + a)%float.
Proof.
  unfold Py.float_add. destruct (Py.as_float x) as [e | a]; cbn;
    [discriminate |].
  intros H. injection H as <-. now exists a.
Qed.

Lemma float_add_ok (f : float) (x : Py.num) (a : float) :
  Py.as_float x = inr a -> Py.float_add f x = inr (f + a)%float.
Proof. unfold Py.float_add. now intros ->. Qed.

(** The conversion of an [int] is the only operation before the division
    that raises, and it raises [OverflowError]. *)
Lemma to_float_error (z : Z) (e : Py.error) :
  Py.to_float z = inl e -> e = Py.OverflowError.
Proof.
  unfold Py.to_float.
  destruct (binary_normalize prec emax z 0 false); cbn; congruence.
Qed.

Lemma as_float_error (x : Py.num) (e : Py.error) :
  Py.as_float x = inl e -> e = Py.OverflowError.
Proof. destruct x; cbn; [apply to_float_error | discriminate]. Qed.

Lemma binop_error fz ff (x y : Py.num) (e : Py.error) :
  Py.binop fz ff x y = inl e -> e = Py.OverflowError.
Proof.
  unfold Py.binop. destruct x as [a | a], y as [b | b]; cbn;
    try discriminate;
    repeat match goal with
      | |- context [Py.to_float ?z] =>
          let E := fresh "E" in
          destruct (Py.to_float z) eqn:E; cbn;
          [apply to_float_error in E; congruence |]
      end; discriminate.
Qed.

Lemma bind_inr {A B : Type} (m : Py.result A) (k : A -> Py.result B)
  (r : B) :
  (x <- m ;; k x) = inr r -> exists v, m = inr v /\ k v = inr r.
Proof. destruct m as [e | v]; cbn; [discriminate | eauto]. Qed.

Lemma bind_inl {A B : Type} (m : Py.result A) (k : A -> Py.result B)
  (e : Py.error) :
  (x <- m ;; k x) = inl e ->
  m = inl e \/ exists v, m = inr v /\ k v = inl e.
Proof. destruct m as [e' | v]; cbn; [intros [= ->]; now left | eauto]. Qed.

Lemma mul_float_error (x : Py.num) (p : float) (e : Py.error) :
  Py.mul_float x p = inl e -> e = Py.OverflowError.
Proof.
  unfold Py.mul_float. intros H.
  apply bind_inl in H as [H | (? & _ & H)];
    [now apply as_float_error in H | discriminate].
Qed.

Lemma add_float_error (x : Py.num) (p : float) (e : Py.error) :
  Py.add_float x p = inl e -> e = Py.OverflowError.
Proof.
  unfold Py.add_float. intros H.
  apply bind_inl in H as [H | (? & _ & H)];
    [now apply as_float_error in H | discriminate].
Qed.

Lemma float_add_error (f : float) (x : Py.num) (e : Py.error) :
  Py.float_add f x = inl e -> e = Py.OverflowError.
Proof.
  unfold Py.float_add. intros H.
  apply bind_inl in H as [H | (? & _ & H)];
    [now apply as_float_error in H | discriminate].
Qed.

Lemma sum_from_error (xs : list Py.num) (acc : Py.num) (e : Py.error) :
  Py.sum_from acc xs = inl e -> e = Py.OverflowError.
Proof.
  revert acc. induction xs as [| x xs IH]; intros acc; cbn [Py.sum_from];
    [discriminate |].
  intros H. apply bind_inl in H as [H | (a & _ & H)].
  - now apply binop_error in H.
  - now apply IH in H.
Qed.

(** *** The builtin [sum] *)

Lemma converts_float (f : float) : Py.converts (Py.Float f).
Proof. now exists f. Qed.

Lemma sum_from_float_returns (xs : list Py.num) (f : float) :
  Forall Py.converts xs ->
  exists g, Py.sum_from (Py.Float f) xs = inr (Py.Float g).
Proof.
  intros H. revert f. induction H as [| x xs [a Hx] _ IH]; intros f.
  - now exists f.
  - cbn [Py.sum_from]. unfold Py.add, Py.binop.
    destruct x as [z | g]; cbn in Hx |- *.
    + rewrite Hx. cbn [bind ret Monad_either]. apply IH.
    + apply IH.
Qed.

Lemma sum_from_int_returns (xs : list Py.num) (a : Z) :
  Forall Py.converts xs ->
  (forall (zs : list Z) (rest : list Py.num),
      xs = map Py.Int zs ++ rest ->
      Py.converts (Py.Int (fold_left Z.add zs a))) ->
  exists r, Py.sum_from (Py.Int a) xs = inr r /\ Py.converts r.
Proof.
  intros H. revert a. induction H as [| x xs Hx Hxs IH]; intros a P.
  - exists (Py.Int a). split; [reflexivity |]. exact (P [] [] eq_refl).
  - cbn [Py.sum_from]. destruct x as [z | g].
    + cbn [Py.add Py.binop bind ret Monad_either]. apply IH.
      intros zs rest E. apply (P (z :: zs) rest). cbn. now rewrite E.
    + destruct (P [] (Py.Float g :: xs) eq_refl) as [b Hb].
      cbn in Hb. unfold Py.add, Py.binop. cbn [Py.as_float].
      rewrite Hb. cbn [bind ret Monad_either].
      destruct (sum_from_float_returns xs (b + g) Hxs) as [r Hr].
      exists (Py.Float r). split; [exact Hr | apply converts_float].
Qed.

Lemma sum_from_ints (zs : list Z) (a : Z) :
  Py.sum_from (Py.Int a) (map Py.Int zs)
  = inr (Py.Int (fold_left Z.add zs a)).
Proof.
  revert a. induction zs as [| z zs IH]; intros a; [reflexivity |].
  cbn [map Py.sum_from Py.add Py.binop bind ret Monad_either fold_left].
  apply IH.
Qed.

(** Adding left to right is one reading of the builtin. *)
Lemma sum_left_to_right_builtin : Py.builtin_sum Py.sum_left_to_right.
Proof.
  constructor; unfold Py.sum_left_to_right.
  - intros zs. apply sum_from_ints.
  - intros xs e. apply sum_from_error.
  - intros xs. apply sum_from_int_returns.
Qed.

(** The entries of a breakdown are chains of operations that can only
    overflow. *)
Lemma aws_costs_error (s : Py.scenario) (e : Py.error) :
  Py.aws_costs s = inl e -> e = Py.OverflowError.
Proof.
  unfold Py.aws_costs, Py.add, Py.sub, Py.mul. cbv zeta. intros H.
  repeat (apply bind_inl in H as [H | (? & _ & H)];
          [first [ now apply binop_error in H
                 | now apply mul_float_error in H ] |]).
  discriminate.
Qed.

Lemma azure_costs_error (s : Py.scenario) (e : Py.error) :
  Py.azure_costs s = inl e -> e = Py.OverflowError.
Proof.
  unfold Py.azure_costs, Py.add, Py.sub, Py.mul. cbv zeta. intros H.
  repeat (apply bind_inl in H as [H | (? & _ & H)];
          [first [ now apply binop_error in H
                 | now apply mul_float_error in H ] |]).
  discriminate.
Qed.

(** With [float] fields no conversion can fail. *)
Lemma is_float_inv (x : Py.num) : Py.is_float x -> exists f, x = Py.Float f.
Proof. destruct x; cbn; [contradiction | eauto]. Qed.

Lemma max_0_add (l e : float) :
  exists t a,
    Py.add (Py.max_0 l) (Py.max_0 e) = inr t /\ Py.as_float t = inr a.
Proof.
  unfold Py.max_0.
  destruct (PrimFloat.ltb 0 l), (PrimFloat.ltb 0 e);
    eexists; eexists; split; reflexivity.
Qed.

(** The [int]s from 0 to 90 convert. *)
Lemma small_int_converts (z : Z) : (0 <= z <= 90)%Z -> Py.converts (Py.Int z).
Proof.
  intros H. destruct z as [| p | p]; [now exists 0%float | | lia].
  do 7 (try (destruct p as [p | p |]; try lia));
    try (eexists; reflexivity).
Qed.

Lemma fold_left_add_bounds (zs : list Z) (a : Z) :
  Forall (fun z => 0 <= z <= 18)%Z zs ->
  (a <= fold_left Z.add zs a <= a + 18 * Z.of_nat (List.length zs))%Z.
Proof.
  intros H. revert a.
  induction H as [| z zs Hz _ IH]; intros a; cbn [fold_left List.length].
  - lia.
  - specialize (IH (a + z)%Z). lia.
Qed.

(** An additional fee is a [float] or a default, an [int] from 0 to 18. *)
Lemma fee_float_or_default (v : option Py.num) (d : Z) :
  Py.opt_float v -> (0 <= d <= 18)%Z ->
  Py.is_float (Py.get v d)
  \/ exists z, Py.get v d = Py.Int z /\ (0 <= z <= 18)%Z.
Proof.
  destruct v as [x |]; cbn; intros H D; [now left | right; eauto].
Qed.

Lemma add_float_ok (x : Py.num) (f a : float) :
  Py.as_float x = inr a -> Py.add_float x f = inr (a + f)%float.
Proof. unfold Py.add_float. now intros ->. Qed.

Lemma add_converts (x y : Py.num) (a : float) :
  Py.as_float x = inr a -> Py.is_float y ->
  exists t b, Py.add x y = inr t /\ Py.as_float t = inr b.
Proof.
  intros Ha Hy. apply is_float_inv in Hy as [f ->].
  exists (Py.Float (a + f)), (a + f)%float. split; [| reflexivity].
  destruct x as [z | g]; cbn in Ha |- *.
  - now rewrite Ha.
  - now injection Ha as ->.
Qed.

Lemma add_float_inv (x : Py.num) (f r : float) :
  Py.add_float x f = inr r ->
  exists a, Py.as_float x = inr a /\ r = (a + f)%float.
Proof.
  unfold Py.add_float. destruct (Py.as_float x) as [e | a]; cbn;
    [discriminate |].
  intros H. injection H as <-. now exists a.
Qed.

Section BuiltinSum.

Variable py_sum : list Py.num -> Py.result Py.num.
Hypothesis sum_ok : Py.builtin_sum py_sum.

Lemma aws_total_cost_error (c : Py.aws_breakdown) (e : Py.error) :
  Py.aws_total_cost py_sum c = inl e -> e = Py.OverflowError.
Proof.
  unfold Py.aws_total_cost. intros H.
  do 3 (apply bind_inl in H as [H | (? & _ & H)];
        [first [ now apply binop_error in H
               | now apply add_float_error in H
               | now apply float_add_error in H ] |]).
  apply bind_inl in H as [H | (? & _ & H)];
    [now apply (Py.sum_error _ sum_ok) in H |].
  now apply float_add_error in H.
Qed.

Lemma azure_total_cost_error (c : Py.azure_breakdown) (e : Py.error) :
  Py.azure_total_cost py_sum c = inl e -> e = Py.OverflowError.
Proof.
  unfold Py.azure_total_cost, Py.add. intros H.
  do 3 (apply bind_inl in H as [H | (? & _ & H)];
        [first [ now apply binop_error in H
               | now apply add_float_error in H
               | now apply float_add_error in H ] |]).
  apply bind_inl in H as [H | (? & _ & H)];
    [now apply (Py.sum_error _ sum_ok) in H |].
  now apply float_add_error in H.
Qed.

(** Once the total exists, the search price has been converted, so the
    logging cost exists as well. *)
Lemma aws_total_cost_logging (c : Py.aws_breakdown) (t : float) :
  Py.aws_total_cost py_sum c = inr t -> exists l, Py.aws_logging c = inr l.
Proof.
  unfold Py.aws_total_cost. intros H.
  apply bind_inr in H as (t1 & _ & H).
  apply bind_inr in H as (t3 & _ & H).
  apply bind_inr in H as (t5 & H5 & _).
  apply float_add_inv in H5 as (a & Ha & _).
  eexists. unfold Py.aws_logging. exact (float_add_ok _ _ _ Ha).
Qed.

Lemma azure_total_cost_logging (c : Py.azure_breakdown) (t : float) :
  Py.azure_total_cost py_sum c = inr t -> exists l, Py.azure_logging c = inr l.
Proof.
  unfold Py.azure_total_cost. intros H.
  apply bind_inr in H as (t1 & _ & H).
  apply bind_inr in H as (t2 & _ & H).
  apply bind_inr in H as (t5 & H5 & _).
  apply float_add_inv in H5 as (a & Ha & _).
  eexists. unfold Py.azure_logging. exact (float_add_ok _ _ _ Ha).
Qed.

Lemma py_calculate_aws_costs_unfold (s : Py.scenario) :
  Py.calculate_aws_costs py_sum s
  = (costs <- Py.aws_costs s ;;
     total_cost <- Py.aws_total_cost py_sum costs ;;
     logging <- Py.aws_logging costs ;;
     q <- Py.div logging total_cost ;;
     ret {| Py.aws_breakdown_of := costs;
            Py.aws_total := total_cost;
            Py.aws_logging_percentage := (q * 100)%float |}).
Proof. reflexivity. Qed.

Lemma py_calculate_azure_costs_unfold (s : Py.scenario) :
  Py.calculate_azure_costs py_sum s
  = (costs <- Py.azure_costs s ;;
     total_cost <- Py.azure_total_cost py_sum costs ;;
     logging <- Py.azure_logging costs ;;
     q <- Py.div logging total_cost ;;
     ret {| Py.azure_breakdown_of := costs;
            Py.azure_total := total_cost;
            Py.azure_logging_percentage := (q * 100)%float |}).
Proof. reflexivity. Qed.

Lemma py_aws_raises_zero_division (s : Py.scenario) :
  Py.calculate_aws_costs py_sum s = inl Py.ZeroDivisionError
  <-> exists c t,
        Py.aws_costs s = inr c /\ Py.aws_total_cost py_sum c = inr t
        /\ PrimFloat.eqb t 0 = true.
Proof.
  rewrite py_calculate_aws_costs_unfold. split.
  - intros H.
    apply bind_inl in H as [H | (c & Hc & H)];
      [apply aws_costs_error in H; discriminate |].
    apply bind_inl in H as [H | (t & Ht & H)];
      [apply aws_total_cost_error in H; discriminate |].
    apply bind_inl in H as [H | (l & Hl & H)];
      [apply float_add_error in H; discriminate |].
    apply bind_inl in H as [H | (q & _ & H)]; [| discriminate].
    exists c, t. repeat split; try assumption. now apply div_raises_iff in H.
  - intros (c & t & Hc & Ht & Hz).
    destruct (aws_total_cost_logging c t Ht) as [l Hl].
    rewrite Hc. cbn [bind Monad_either]. rewrite Ht. cbn [bind Monad_either].
    rewrite Hl. cbn [bind Monad_either].
    now rewrite (proj2 (div_raises_iff l t) Hz).
Qed.

Lemma py_azure_raises_zero_division (s : Py.scenario) :
  Py.calculate_azure_costs py_sum s = inl Py.ZeroDivisionError
  <-> exists c t,
        Py.azure_costs s = inr c /\ Py.azure_total_cost py_sum c = inr t
        /\ PrimFloat.eqb t 0 = true.
Proof.
  rewrite py_calculate_azure_costs_unfold. split.
  - intros H.
    apply bind_inl in H as [H | (c & Hc & H)];
      [apply azure_costs_error in H; discriminate |].
    apply bind_inl in H as [H | (t & Ht & H)];
      [apply azure_total_cost_error in H; discriminate |].
    apply bind_inl in H as [H | (l & Hl & H)];
      [apply float_add_error in H; discriminate |].
    apply bind_inl in H as [H | (q & _ & H)]; [| discriminate].
    exists c, t. repeat split; try assumption. now apply div_raises_iff in H.
  - intros (c & t & Hc & Ht & Hz).
    destruct (azure_total_cost_logging c t Ht) as [l Hl].
    rewrite Hc. cbn [bind Monad_either]. rewrite Ht. cbn [bind Monad_either].
    rewrite Hl. cbn [bind Monad_either].
    now rewrite (proj2 (div_raises_iff l t) Hz).
Qed.

Lemma py_aws_returns (s : Py.scenario) (c : Py.aws_breakdown) (t : float) :
  Py.aws_costs s = inr c -> Py.aws_total_cost py_sum c = inr t ->
  PrimFloat.eqb t 0 = false ->
  exists l,
    Py.aws_logging c = inr l
    /\ Py.calculate_aws_costs py_sum s
       = inr {| Py.aws_breakdown_of := c;
                Py.aws_total := t;
                Py.aws_logging_percentage := (l / t * 100)%float |}.
Proof.
  intros Hc Ht Hz. destruct (aws_total_cost_logging c t Ht) as [l Hl].
  exists l. split; [exact Hl |].
  rewrite py_calculate_aws_costs_unfold, Hc. cbn [bind Monad_either].
  rewrite Ht. cbn [bind Monad_either]. rewrite Hl. cbn [bind Monad_either].
  now rewrite (div_ok l t Hz).
Qed.

Lemma py_azure_returns (s : Py.scenario) (c : Py.azure_breakdown) (t : float) :
  Py.azure_costs s = inr c -> Py.azure_total_cost py_sum c = inr t ->
  PrimFloat.eqb t 0 = false ->
  exists l,
    Py.azure_logging c = inr l
    /\ Py.calculate_azure_costs py_sum s
       = inr {| Py.azure_breakdown_of := c;
                Py.azure_total := t;
                Py.azure_logging_percentage := (l / t * 100)%float |}.
Proof.
  intros Hc Ht Hz. destruct (azure_total_cost_logging c t Ht) as [l Hl].
  exists l. split; [exact Hl |].
  rewrite py_calculate_azure_costs_unfold, Hc. cbn [bind Monad_either].
  rewrite Ht. cbn [bind Monad_either]. rewrite Hl. cbn [bind Monad_either].
  now rewrite (div_ok l t Hz).
Qed.

(** With at most five fees, each a [float] or a default, the sum of the
    additional fees is computed and converts. *)
Lemma fees_sum_returns (xs : list Py.num) :
  Forall (fun x => Py.is_float x
                   \/ exists z, x = Py.Int z /\ (0 <= z <= 18)%Z) xs ->
  (List.length xs <= 5)%nat ->
  exists r, py_sum xs = inr r /\ Py.converts r.
Proof.
  intros F L. apply (Py.sum_returns _ sum_ok).
  - apply (Forall_impl _ (P := fun x => Py.is_float x
                   \/ exists z, x = Py.Int z /\ (0 <= z <= 18)%Z));
      [| exact F].
    intros x [H | (z & -> & H)].
    + apply is_float_inv in H as [f ->]. apply converts_float.
    + apply small_int_converts. lia.
  - intros zs rest E. subst xs.
    apply Forall_app in F as [F _].
    rewrite length_app, length_map in L.
    assert (B : Forall (fun z => 0 <= z <= 18)%Z zs).
    { clear L. induction zs as [| z zs IH]; [constructor |].
      cbn [map] in F. apply Forall_cons_iff in F as [[H | (z' & E & H)] F].
      - contradiction.
      - injection E as <-. constructor; [exact H | now apply IH]. }
    pose proof (fold_left_add_bounds zs 0 B).
    apply small_int_converts. lia.
Qed.

(** With [float] fields no conversion can fail. *)
Lemma py_all_float_aws (s : Py.scenario) :
  Py.all_float s ->
  exists c t, Py.aws_costs s = inr c /\ Py.aws_total_cost py_sum c = inr t.
Proof.
  intros [Hrq Hdu Hme Hst Htr Hlo Hmt Hal Hdb Hos _ _ _ Hc Hn Hw Hd _ _ _ _].
  apply is_float_inv in Hrq as [rq Erq], Hdu as [du Edu], Hme as [me Eme],
    Hst as [st Est], Htr as [tr Etr], Hlo as [lo Elo], Hmt as [mt Emt],
    Hal as [al Eal], Hdb as [db Edb], Hos as [os Eos].
  destruct (max_0_add ((rq - 1000000) * 0.0000002)
              ((rq * du * me - 400000) * 0.0000166667))
    as (lt & la & Hlt & Hla).
  destruct (fees_sum_returns
              [Py.get (Py.cognito_cost s) 0;
               Py.get (Py.notification_cost s) 2;
               Py.get (Py.waf_cost s) 6;
               Py.get (Py.data_transfer_cost s) 18])
    as (fees & Hf & fa & Hfa);
    [repeat (apply Forall_cons;
             [apply fee_float_or_default; [assumption | lia] |]);
     apply Forall_nil
    | cbn; lia |].
  unfold Py.aws_costs. rewrite Erq, Edu, Eme, Est, Etr, Elo, Emt, Eal.
  cbn [Py.mul Py.sub Py.binop Py.mul_float Py.as_float bind ret
       Monad_either].
  rewrite to_float_1000000, to_float_400000.
  cbn [Py.mul_float Py.as_float bind ret Monad_either].
  rewrite Hlt. cbn [bind ret Monad_either].
  eexists. eexists. split; [reflexivity |].
  unfold Py.aws_total_cost.
  cbn [Py.lambda Py.lambda_total Py.api_gateway Py.s3_cloudfront Py.s3_total
       Py.database Py.cloudwatch Py.cw_total Py.opensearch Py.additional
       Py.aws_additional_values Py.cognito Py.sns_ses Py.waf
       Py.aws_data_transfer].
  rewrite (add_float_ok _ _ _ Hla). cbn [bind ret Monad_either].
  rewrite Edb, Eos.
  cbn [Py.float_add Py.as_float bind ret Monad_either].
  unfold Py.aws_additional_values.
  cbn [Py.cognito Py.sns_ses Py.waf Py.aws_data_transfer].
  rewrite Hf. cbn [bind ret Monad_either]. rewrite Hfa. reflexivity.
Qed.

Lemma py_all_float_azure (s : Py.scenario) :
  Py.all_float s ->
  exists c t, Py.azure_costs s = inr c /\ Py.azure_total_cost py_sum c = inr t.
Proof.
  intros [Hrq Hdu Hme Hst Htr Hlo _ _ _ _ Hap Hco Hse _ _ _ Hd Hb Hl Hg Hk].
  apply is_float_inv in Hrq as [rq Erq], Hdu as [du Edu], Hme as [me Eme],
    Hst as [st Est], Htr as [tr Etr], Hlo as [lo Elo], Hco as [co Eco],
    Hse as [se Ese].
  destruct (max_0_add ((rq - 1000000) * 0.0000002)
              ((rq * du * me - 400000) * 0.000016))
    as (ft & fa & Hft & Hfa).
  destruct (add_converts ft (Py.apim_tier_cost s) fa Hfa Hap)
    as (t1 & b1 & Ht1 & Hb1).
  destruct (fees_sum_returns
              [Py.get (Py.ad_b2c_cost s) 0;
               Py.get (Py.logic_apps_cost s) 1;
               Py.get (Py.app_gateway_cost s) 18;
               Py.get (Py.key_vault_cost s) 1;
               Py.get (Py.data_transfer_cost s) 16])
    as (fees & Hf & fb & Hfb);
    [repeat (apply Forall_cons;
             [apply fee_float_or_default; [assumption | lia] |]);
     apply Forall_nil
    | cbn; lia |].
  unfold Py.azure_costs. rewrite Erq, Edu, Eme, Est, Etr, Elo, Eco.
  cbn [Py.mul Py.sub Py.binop Py.mul_float Py.as_float bind ret
       Monad_either].
  rewrite to_float_1000000, to_float_400000.
  cbn [Py.mul_float Py.as_float bind ret Monad_either].
  rewrite Hft. cbn [bind ret Monad_either].
  eexists. eexists. split; [reflexivity |].
  unfold Py.azure_total_cost.
  cbn [Py.functions Py.functions_total Py.apim Py.static_web_apps
       Py.swa_total Py.cosmos_db Py.monitor Py.monitor_total Py.search
       Py.az_additional Py.azure_additional_values Py.ad_b2c Py.logic_apps
       Py.app_gateway Py.key_vault Py.azure_data_transfer].
  rewrite Ht1. cbn [bind ret Monad_either].
  rewrite (add_float_ok _ _ _ Hb1). cbn [bind ret Monad_either].
  rewrite Ese.
  cbn [Py.float_add Py.as_float bind ret Monad_either].
  unfold Py.azure_additional_values.
  cbn [Py.ad_b2c Py.logic_apps Py.app_gateway Py.key_vault
       Py.azure_data_transfer].
  rewrite Hf. cbn [bind ret Monad_either]. rewrite Hfb. reflexivity.
Qed.

Lemma py_calculate_aws_costs_inr (s : Py.scenario) (r : Py.aws_result) :
  Py.calculate_aws_costs py_sum s = inr r ->
  Py.aws_costs s = inr (Py.aws_breakdown_of r)
  /\ Py.aws_total_cost py_sum (Py.aws_breakdown_of r) = inr (Py.aws_total r).
Proof.
  rewrite py_calculate_aws_costs_unfold. intros H.
  apply bind_inr in H as (c & Hc & H).
  apply bind_inr in H as (t & Ht & H).
  apply bind_inr in H as (l & _ & H).
  apply bind_inr in H as (q & _ & H).
  injection H as <-. now split.
Qed.

Lemma py_calculate_azure_costs_inr (s : Py.scenario) (r : Py.azure_result) :
  Py.calculate_azure_costs py_sum s = inr r ->
  Py.azure_costs s = inr (Py.azure_breakdown_of r)
  /\ Py.azure_total_cost py_sum (Py.azure_breakdown_of r)
     = inr (Py.azure_total r).
Proof.
  rewrite py_calculate_azure_costs_unfold. intros H.
  apply bind_inr in H as (c & Hc & H).
  apply bind_inr in H as (t & Ht & H).
  apply bind_inr in H as (l & _ & H).
  apply bind_inr in H as (q & _ & H).
  injection H as <-. now split.
Qed.

(** Without optional keys the additional fees are [int]s, their sum is
    exact, and the cost functions do not depend on how the builtin [sum]
    adds [float]s. *)
Lemma default_fees_aws (s : Py.scenario) :
  Py.default_fees s ->
  Py.calculate_aws_costs py_sum s
  = Py.calculate_aws_costs Py.sum_left_to_right s.
Proof.
  intros (H1 & H2 & H3 & H4 & _).
  unfold Py.calculate_aws_costs.
  destruct (Py.aws_costs s) as [e | c] eqn:E; [reflexivity |].
  cbn [bind Monad_either].
  assert (A : Py.aws_additional_values (Py.additional c)
              = map Py.Int [0; 2; 6; 18]%Z).
  { unfold Py.aws_costs in E. cbv zeta in E.
    repeat (apply bind_inr in E as (? & _ & E)).
    injection E as <-. cbn. now rewrite H1, H2, H3, H4. }
  unfold Py.aws_total_cost. rewrite A.
  rewrite (Py.sum_ints _ sum_ok),
    (Py.sum_ints _ sum_left_to_right_builtin).
  reflexivity.
Qed.

Lemma default_fees_azure (s : Py.scenario) :
  Py.default_fees s ->
  Py.calculate_azure_costs py_sum s
  = Py.calculate_azure_costs Py.sum_left_to_right s.
Proof.
  intros (_ & _ & _ & H4 & H5 & H6 & H7 & H8).
  unfold Py.calculate_azure_costs.
  destruct (Py.azure_costs s) as [e | c] eqn:E; [reflexivity |].
  cbn [bind Monad_either].
  assert (A : Py.azure_additional_values (Py.az_additional c)
              = map Py.Int [0; 1; 18; 1; 16]%Z).
  { unfold Py.azure_costs in E. cbv zeta in E.
    repeat (apply bind_inr in E as (? & _ & E)).
    injection E as <-. cbn. now rewrite H4, H5, H6, H7, H8. }
  unfold Py.azure_total_cost. rewrite A.
  rewrite (Py.sum_ints _ sum_ok),
    (Py.sum_ints _ sum_left_to_right_builtin).
  reflexivity.
Qed.

Lemma default_fees_compare (s : Py.scenario) :
  Py.default_fees s ->
  Py.compare_scenario py_sum s
  = Py.compare_scenario Py.sum_left_to_right s.
Proof.
  intros H. unfold Py.compare_scenario.
  now rewrite (default_fees_aws s H), (default_fees_azure s H).
Qed.

End BuiltinSum.

(** ** C4: when the cost functions fail *)

(** C4, as the code has it.  With any builtin [sum], a provider cost
    function raises ZeroDivisionError exactly when the grand total it
    computed is zero, and returns the breakdown, the total and the logging
    percentage when the total it computed is not zero, in particular when it
    is strictly positive.  The division is not the only partial operation:
    before it, an [int] too large for a [float] makes a conversion raise
    OverflowError, and nothing else can fail; when every numeric field is a
    [float] no conversion fails, the total is computed and the division by
    zero is the only failure. *)
Theorem C4_division_by_zero_and_overflow
  (py_sum : list Py.num -> Py.result Py.num) (s : Py.scenario) :
  Py.builtin_sum py_sum ->
  (Py.calculate_aws_costs py_sum s = inl Py.ZeroDivisionError
   <-> exists c t,
         Py.aws_costs s = inr c /\ Py.aws_total_cost py_sum c = inr t
         /\ PrimFloat.eqb t 0 = true)
  /\ (Py.calculate_azure_costs py_sum s = inl Py.ZeroDivisionError
      <-> exists c t,
            Py.azure_costs s = inr c /\ Py.azure_total_cost py_sum c = inr t
            /\ PrimFloat.eqb t 0 = true)
  /\ (forall c t,
        Py.aws_costs s = inr c -> Py.aws_total_cost py_sum c = inr t ->
        PrimFloat.ltb 0 t = true \/ PrimFloat.eqb t 0 = false ->
        exists l,
          Py.aws_logging c = inr l
          /\ Py.calculate_aws_costs py_sum s
             = inr {| Py.aws_breakdown_of := c;
                      Py.aws_total := t;
                      Py.aws_logging_percentage := (l / t * 100)%float |})
  /\ (forall c t,
        Py.azure_costs s = inr c -> Py.azure_total_cost py_sum c = inr t ->
        PrimFloat.ltb 0 t = true \/ PrimFloat.eqb t 0 = false ->
        exists l,
          Py.azure_logging c = inr l
          /\ Py.calculate_azure_costs py_sum s
             = inr {| Py.azure_breakdown_of := c;
                      Py.azure_total := t;
                      Py.azure_logging_percentage := (l / t * 100)%float |})
  /\ (forall e,
        Py.aws_costs s = inl e
        \/ (exists c,
              Py.aws_costs s = inr c /\ Py.aws_total_cost py_sum c = inl e) ->
        e = Py.OverflowError
        /\ Py.calculate_aws_costs py_sum s = inl Py.OverflowError)
  /\ (forall e,
        Py.azure_costs s = inl e
        \/ (exists c,
              Py.azure_costs s = inr c
              /\ Py.azure_total_cost py_sum c = inl e) ->
        e = Py.OverflowError
        /\ Py.calculate_azure_costs py_sum s = inl Py.OverflowError)
  /\ (Py.all_float s ->
      (exists c t,
         Py.aws_costs s = inr c /\ Py.aws_total_cost py_sum c = inr t)
      /\ (exists c t,
            Py.azure_costs s = inr c
            /\ Py.azure_total_cost py_sum c = inr t)).
Proof.
  intros sum_ok.
  split; [apply (py_aws_raises_zero_division py_sum sum_ok) |].
  split; [apply (py_azure_raises_zero_division py_sum sum_ok) |].
  split.
  { intros c t Hc Ht [Hp | Hz]; apply (py_aws_returns py_sum s c t Hc Ht);
      [now apply positive_not_zero | exact Hz]. }
  split.
  { intros c t Hc Ht [Hp | Hz]; apply (py_azure_returns py_sum s c t Hc Ht);
      [now apply positive_not_zero | exact Hz]. }
  split.
  { intros e [H | (c & Hc & H)].
    - pose proof (aws_costs_error s e H) as ->. split; [reflexivity |].
      rewrite py_calculate_aws_costs_unfold, H. reflexivity.
    - pose proof (aws_total_cost_error py_sum sum_ok c e H) as ->.
      split; [reflexivity |].
      rewrite py_calculate_aws_costs_unfold, Hc. cbn [bind Monad_either].
      now rewrite H. }
  split.
  { intros e [H | (c & Hc & H)].
    - pose proof (azure_costs_error s e H) as ->. split; [reflexivity |].
      rewrite py_calculate_azure_costs_unfold, H. reflexivity.
    - pose proof (azure_total_cost_error py_sum sum_ok c e H) as ->.
      split; [reflexivity |].
      rewrite py_calculate_azure_costs_unfold, Hc. cbn [bind Monad_either].
      now rewrite H. }
  intros F. split;
    [now apply (py_all_float_aws py_sum sum_ok)
    | now apply (py_all_float_azure py_sum sum_ok)].
Qed.

(** C4 as stated fails: with 10^400 requests, an [int], both cost functions
    raise OverflowError while converting it, before any total is computed;
    no total is zero and the failing operation is not the division. *)
Lemma C4_overflow_before_any_division :
  Py.aws_costs Py.huge_requests = inl Py.OverflowError
  /\ Py.calculate_aws_costs Py.sum_left_to_right Py.huge_requests
     = inl Py.OverflowError
  /\ Py.azure_costs Py.huge_requests = inl Py.OverflowError
  /\ Py.calculate_azure_costs Py.sum_left_to_right Py.huge_requests
     = inl Py.OverflowError.
Proof. repeat split; vm_compute; reflexivity. Qed.

Lemma py_idle_all_float : Py.all_float Py.idle.
Proof. constructor; exact I. Qed.

(** C4 at the idle scenario, whose fields are [float]s: both totals are
    computed; the AWS total is zero and the AWS function raises
    ZeroDivisionError, the Azure total is 9 and the Azure function
    returns. *)
Lemma C4_division_by_zero_and_overflow_witness :
  Py.builtin_sum Py.sum_left_to_right
  /\ Py.all_float Py.idle
  /\ Py.calculate_aws_costs Py.sum_left_to_right Py.idle
     = inl Py.ZeroDivisionError
  /\ exists c l,
       Py.azure_costs Py.idle = inr c
       /\ Py.azure_total_cost Py.sum_left_to_right c = inr 9%float
       /\ Py.calculate_azure_costs Py.sum_left_to_right Py.idle
          = inr {| Py.azure_breakdown_of := c;
                   Py.azure_total := 9;
                   Py.azure_logging_percentage := (l / 9 * 100)%float |}.
Proof.
  destruct (C4_division_by_zero_and_overflow Py.sum_left_to_right Py.idle
              sum_left_to_right_builtin)
    as (Za & _ & _ & Rz & _).
  split; [exact sum_left_to_right_builtin |].
  split; [exact py_idle_all_float |]. split.
  - apply Za. eexists. eexists.
    split; [vm_compute; reflexivity |].
    split; [vm_compute; reflexivity | vm_compute; reflexivity].
  - assert (Hc : exists c,
               Py.azure_costs Py.idle = inr c
               /\ Py.azure_total_cost Py.sum_left_to_right c
                  = inr 9%float).
    { eexists. split; [vm_compute; reflexivity | vm_compute; reflexivity]. }
    destruct Hc as (c & Hc & Ht).
    destruct (Rz c 9%float Hc Ht) as (l & _ & Hr);
      [left; vm_compute; reflexivity |].
    exists c, l. auto.
Defined.

(** ** C2: the grand total *)

(** C2, as the code has it.  The grand total a provider returns is the sum
    of its service entries, each entering once, added left to right on
    binary64 numbers: for AWS the Lambda total, the API Gateway fee, the S3
    and CloudFront total, the database price, the CloudWatch total, the
    search price and the sum of the additional fees; for Azure the
    Functions total with the API Management price, the Static Web Apps
    total, the Cosmos DB cost, the Monitor total, the search price and the
    sum of the additional fees.  In the simpler script the total is computed
    as compute + storage + database + logging + additional, so there it is
    the sum of the five category sub-totals. *)
Theorem C2_grand_total_left_to_right
  (py_sum : list Py.num -> Py.result Py.num)
  (s : Py.scenario) (a : Accurate.scenario) :
  (forall ra : Py.aws_result,
      Py.calculate_aws_costs py_sum s = inr ra ->
      exists lambda_total database opensearch fees additional,
        Py.as_float (Py.lambda_total (Py.lambda (Py.aws_breakdown_of ra)))
        = inr lambda_total
        /\ Py.as_float (Py.database (Py.aws_breakdown_of ra)) = inr database
        /\ Py.as_float (Py.opensearch (Py.aws_breakdown_of ra))
           = inr opensearch
        /\ py_sum
             (Py.aws_additional_values
                (Py.additional (Py.aws_breakdown_of ra)))
           = inr fees
        /\ Py.as_float fees = inr additional
        /\ Py.aws_total ra
           = (lambda_total + Py.api_gateway (Py.aws_breakdown_of ra)
              + Py.s3_total (Py.s3_cloudfront (Py.aws_breakdown_of ra))
              + database
              + Py.cw_total (Py.cloudwatch (Py.aws_breakdown_of ra))
              + opensearch + additional)%float)
  /\ (forall rz : Py.azure_result,
        Py.calculate_azure_costs py_sum s = inr rz ->
        exists compute functions_and_apim search fees additional,
          Py.add
            (Py.functions_total (Py.functions (Py.azure_breakdown_of rz)))
            (Py.apim (Py.azure_breakdown_of rz)) = inr compute
          /\ Py.as_float compute = inr functions_and_apim
          /\ Py.as_float (Py.search (Py.azure_breakdown_of rz)) = inr search
          /\ py_sum
               (Py.azure_additional_values
                  (Py.az_additional (Py.azure_breakdown_of rz)))
             = inr fees
          /\ Py.as_float fees = inr additional
          /\ Py.azure_total rz
             = (functions_and_apim
                + Py.swa_total
                    (Py.static_web_apps (Py.azure_breakdown_of rz))
                + Py.cosmos_db (Py.azure_breakdown_of rz)
                + Py.monitor_total (Py.monitor (Py.azure_breakdown_of rz))
                + search + additional)%float)
  /\ (forall xa : Accurate.costs,
        Accurate.calculate_aws_costs a = inr xa ->
        Accurate.total xa
        = Accurate.compute xa + Accurate.storage xa + Accurate.database xa
          + Accurate.logging xa + Accurate.aws_additional)
  /\ (forall xz : Accurate.costs,
        Accurate.calculate_azure_costs a = inr xz ->
        Accurate.total xz
        = Accurate.compute xz + Accurate.storage xz + Accurate.database xz
          + Accurate.logging xz + Accurate.azure_additional).
Proof.
  split; [| split; [| split]].
  - intros ra Ha.
    apply py_calculate_aws_costs_inr in Ha as [_ Ha].
    unfold Py.aws_total_cost in Ha.
    apply bind_inr in Ha as (t1 & H1 & Ha).
    apply bind_inr in Ha as (t3 & H3 & Ha).
    apply bind_inr in Ha as (t5 & H5 & Ha).
    apply bind_inr in Ha as (fees & Hf & Ha).
    apply add_float_inv in H1 as (lt & Hlt & ->).
    apply float_add_inv in H3 as (db & Hdb & ->).
    apply float_add_inv in H5 as (os & Hos & ->).
    apply float_add_inv in Ha as (ad & Had & Ht).
    exists lt, db, os, fees, ad. repeat split; assumption.
  - intros rz Hz.
    apply py_calculate_azure_costs_inr in Hz as [_ Hz].
    unfold Py.azure_total_cost in Hz.
    apply bind_inr in Hz as (t1 & H1 & Hz).
    apply bind_inr in Hz as (t2 & H2 & Hz).
    apply bind_inr in Hz as (t5 & H5 & Hz).
    apply bind_inr in Hz as (fees & Hf & Hz).
    apply add_float_inv in H2 as (f1 & Hf1 & ->).
    apply float_add_inv in H5 as (se & Hse & ->).
    apply float_add_inv in Hz as (ad & Had & Ht).
    exists t1, f1, se, fees, ad. repeat split; assumption.
  - intros xa Ka.
    apply accurate_aws_costs_inr in Ka as (-> & -> & -> & -> & -> & _).
    reflexivity.
  - intros xz Kz.
    apply accurate_azure_costs_inr in Kz as (-> & -> & -> & -> & -> & _).
    reflexivity.
Qed.

(** C2 as stated fails on binary64: with 7 GB of logs and the middle search
    tier, the total the AWS function returns (265.53499999999997) is not
    the sum of the five category sub-totals (265.535). *)
Lemma C2_regrouping_changes_the_total :
  exists r categories,
    Py.calculate_aws_costs Py.sum_left_to_right Py.regrouped = inr r
    /\ Py.aws_category_sum Py.sum_left_to_right (Py.aws_breakdown_of r)
       = inr categories
    /\ PrimFloat.eqb (Py.aws_total r) categories = false.
Proof.
  eexists. eexists.
  split; [vm_compute; reflexivity |].
  split; [vm_compute; reflexivity | vm_compute; reflexivity].
Qed.

(** On the three scenarios of the report the regrouping happens to leave
    both totals unchanged. *)
Example report_scenarios_regroup :
  Forall
    (fun s =>
       match Py.calculate_aws_costs Py.sum_left_to_right s,
             Py.calculate_azure_costs Py.sum_left_to_right s with
       | inr ra, inr rz =>
           Py.aws_category_sum Py.sum_left_to_right (Py.aws_breakdown_of ra)
           = inr (Py.aws_total ra)
           /\ Py.azure_category_sum Py.sum_left_to_right
                (Py.azure_breakdown_of rz)
              = inr (Py.azure_total rz)
       | _, _ => False
       end)
    [Py.low_usage; Py.medium_usage; Py.high_usage].
Proof. repeat constructor; vm_compute; reflexivity. Qed.

Example regrouped_figures :
  match Py.calculate_aws_costs Py.sum_left_to_right Py.regrouped with
  | inr r =>
      Py.aws_total r = 265.53499999999997%float
      /\ Py.aws_category_sum Py.sum_left_to_right (Py.aws_breakdown_of r)
         = inr 265.535%float
  | inl _ => False
  end.
Proof. vm_compute. split; reflexivity. Qed.

(** C2 at the low-usage scenario of the report and the low scenario of the
    simpler script: both functions return, and the totals are the sums the
    theorem gives. *)
Lemma C2_grand_total_left_to_right_witness :
  (exists ra rz,
     Py.calculate_aws_costs Py.sum_left_to_right Py.low_usage = inr ra
     /\ Py.calculate_azure_costs Py.sum_left_to_right Py.low_usage = inr rz
     /\ Py.aws_total ra = 150.125%float
     /\ Py.azure_total rz = 5985.8999999999996%float)
  /\ exists xa,
       Accurate.calculate_aws_costs Accurate.low = inr xa
       /\ Accurate.total xa
          = Accurate.compute xa + Accurate.storage xa + Accurate.database xa
            + Accurate.logging xa + Accurate.aws_additional.
Proof.
  assert (Ha : exists ra,
             Py.calculate_aws_costs Py.sum_left_to_right Py.low_usage
             = inr ra
             /\ Py.aws_total ra = 150.125%float).
  { eexists. split; [vm_compute; reflexivity | vm_compute; reflexivity]. }
  assert (Hz : exists rz,
             Py.calculate_azure_costs Py.sum_left_to_right Py.low_usage
             = inr rz
             /\ Py.azure_total rz = 5985.8999999999996%float).
  { eexists. split; [vm_compute; reflexivity | vm_compute; reflexivity]. }
  destruct Ha as (ra & Ha & Ta), Hz as (rz & Hz & Tz).
  destruct (accurate_aws_costs_ok Accurate.low accurate_low_aws_total_nonzero)
    as [xa Ka].
  destruct (C2_grand_total_left_to_right Py.sum_left_to_right Py.low_usage
              Accurate.low) as (_ & _ & Ea & _).
  split.
  - exists ra, rz. auto.
  - exists xa. split; [exact Ka | exact (Ea xa Ka)].
Defined.

(** ** C5 and C7 at the edge of the number range *)

(** C7 as stated fails at the edge of the binary64 range: with a log volume
    and a search price of 1.7e308, both non-negative, the AWS total
    overflows to infinity, which is strictly positive, and the logging
    percentage, infinity divided by infinity, is NaN, neither at least 0 nor
    at most 100. *)
Lemma C7_overflow_gives_nan :
  exists r,
    Py.calculate_aws_costs Py.sum_left_to_right Py.overflowing = inr r
    /\ Py.aws_total r = infinity
    /\ PrimFloat.ltb 0 (Py.aws_total r) = true
    /\ PrimFloat.is_nan (Py.aws_logging_percentage r) = true
    /\ PrimFloat.leb 0 (Py.aws_logging_percentage r) = false
    /\ PrimFloat.leb (Py.aws_logging_percentage r) 100 = false.
Proof.
  eexists. split; [vm_compute; reflexivity |].
  repeat split; vm_compute; reflexivity.
Qed.


Example credited_figures :
  match Py.compare_scenario Py.sum_left_to_right Py.credited with
  | inr r =>
      Py.aws_total (Py.aws r) = (-914.875)%float
      /\ Py.azure_total (Py.azure r) = 5985.8999999999996%float
  | inl _ => False
  end.
Proof. vm_compute. split; reflexivity. Qed.
